(** * Node behaviour of an NMOS IS-04 node (nmos/node_behaviour.cpp)

    A shallow embedding of the discovery/registration state machine:
    the registry multimap, the event grain and its guard, the
    registration client, the heartbeat, the three operating loops and
    the outer thread.  Everything outside the translation unit (HTTP
    transport, mDNS, the other threads that mutate the resource store)
    is a scripted environment carried in the [world]. *)

From Stdlib Require Import List ZArith NArith QArith String Ascii DecimalString Bool Lia.
From Stdlib Require Import Sorted Permutation.
Import ListNotations.
Local Open Scope string_scope.
Local Open Scope list_scope.
Local Open Scope Z_scope.

Set Implicit Arguments.

(** ** Plain data *)

Definition id := string.
Definition uri := string.
Definition json := string.
Definition tai := N.
Definition service_priority := Z.

(** ** The registry list: [std::multimap<service_priority, web::uri>]

    An ordered multimap is kept as the list of its entries in iteration
    order.  Order and duplicates matter, so it is an association list
    and not a finite map. *)

Module MultiMap.

Definition multimap := list (service_priority * uri).

(** [multimap::insert(value)]: the new entry goes after every entry
    whose key is not greater (upper bound of the equal range). *)
Fixpoint insert (kv : service_priority * uri) (m : multimap) : multimap :=
  match m with
  | [] => [kv]
  | e :: m' => if fst kv <? fst e then kv :: m else e :: insert kv m'
  end.

(** The multimap obtained from a sequence of insertions, oldest first. *)
Definition of_insertions (l : list (service_priority * uri)) : multimap :=
  fold_left (fun m kv => insert kv m) l [].

Definition empty (m : multimap) : bool :=
  match m with [] => true | _ :: _ => false end.

(** The list of insertions with the one at position [i] left out. *)
Fixpoint without (i : nat) (l : list (service_priority * uri)) :=
  match l, i with
  | [], _ => []
  | _ :: l', O => l'
  | x :: l', S i' => x :: without i' l'
  end.

End MultiMap.
Import MultiMap.

(** What the C++ leaves undefined and a total embedding must name. *)
Inductive undefined_behaviour :=
| dereference_end   (* [registration_services.begin()->second] on an empty multimap *)
| erase_end.        (* [registration_services.erase(begin())] on an empty multimap *)

(** [top_registration_service]: [registration_services.begin()->second]. *)
Definition top_registration_service (registration_services : multimap) : option uri :=
  match registration_services with
  | [] => None
  | e :: _ => Some (snd e)
  end.

(** [pop_registration_service]: [registration_services.erase(registration_services.begin())]. *)
Definition pop_registration_service (registration_services : multimap) : option multimap :=
  match registration_services with
  | [] => None
  | _ :: m => Some m
  end.

(** ** Resource events

    An event of the node behaviour grain.  The source reads three things
    from one: its ["path"] (["<resourceType>/<id>"]), its kind
    ([get_resource_event_type]) and, for creations and updates, its
    ["post"] payload. *)

Inductive resource_event_type :=
| resource_added_event
| resource_removed_event
| resource_modified_event
| resource_unchanged_event.   (* the 'sync' event *)

Record event := {
  path : string;
  kind : resource_event_type;
  post : json
}.

Definition resource_event_type_eqb (a b : resource_event_type) : bool :=
  match a, b with
  | resource_added_event, resource_added_event
  | resource_removed_event, resource_removed_event
  | resource_modified_event, resource_modified_event
  | resource_unchanged_event, resource_unchanged_event => true
  | _, _ => false
  end.

(** Modelled from the spec: [get_resource_event_type] (nmos/query_utils.h)
    is outside this translation unit; the spec's data model gives every
    event a [kind] in added, modified, removed, sync, which is what it
    returns. *)
Definition get_resource_event_type (e : event) : resource_event_type := kind e.

(** [nmos::type]; the six IS-04 resource types and anything else. *)
Inductive type :=
| node | device | source | flow | sender | receiver
| other_type (name : string).

Definition type_eqb (a b : type) : bool :=
  match a, b with
  | node, node | device, device | source, source
  | flow, flow | sender, sender | receiver, receiver => true
  | other_type x, other_type y => String.eqb x y
  | _, _ => false
  end.

(** Modelled from the spec: [nmos::type_from_resourceType]
    (nmos/api_utils.h) is outside this translation unit; the spec
    writes paths as ["<resource-type-plural>/<id>"], e.g. [senders/<uuid>]. *)
Definition type_from_resourceType (resourceType : string) : type :=
  if String.eqb resourceType "nodes" then node
  else if String.eqb resourceType "devices" then device
  else if String.eqb resourceType "sources" then source
  else if String.eqb resourceType "flows" then flow
  else if String.eqb resourceType "senders" then sender
  else if String.eqb resourceType "receivers" then receiver
  else other_type resourceType.

(** [std::string::find(char)]; [None] is [npos]. *)
Fixpoint find (c : ascii) (s : string) : option nat :=
  match s with
  | EmptyString => None
  | String a s' => if Ascii.eqb a c then Some O else option_map S (find c s')
  end.

(** [get_node_behaviour_event_id_type].  Without a slash, [slash] is
    [npos]: [substr(npos + 1)] is [substr(0)] and [substr(0, npos)] is
    the whole path. *)
Definition get_node_behaviour_event_id_type (e : event) : id * type :=
  match find "/"%char (path e) with
  | Some slash =>
      (substring (S slash) (String.length (path e)) (path e),
       type_from_resourceType (substring 0 slash (path e)))
  | None => (path e, type_from_resourceType (path e))
  end.

(** ** HTTP as the agent sees it *)

Inductive method := POST | DEL.

Record request := {
  request_method : method;
  request_path : string;
  request_body : option (type * json)
}.

(** What [client.request(...)] delivers: a response with its status
    code, or an [http_exception] (no connection, timeout). *)
Inductive reply :=
| response (status_code : Z)
| failure.

Module status_codes.
Definition OK := 200.
Definition Created := 201.
Definition NoContent := 204.
Definition NotFound := 404.
End status_codes.

(** Modelled from the spec: the two predicates of cpprest's
    [web::http] are outside this translation unit; the spec speaks of
    4xx and 5xx. *)
Definition is_client_error_status_code (c : Z) : bool := (400 <=? c) && (c <? 500).
Definition is_server_error_status_code (c : Z) : bool := (500 <=? c) && (c <? 600).

(** The two exceptions the operating loops catch. *)
Inductive exception :=
| http_exception
| registration_service_exception.

(** ** Peer-to-peer version counters

    Modelled from the spec: [nmos::api_resource_versions] (nmos/mdns.h)
    is outside this translation unit; the spec's data model has one
    non-negative integer per resource type, starting at 0. *)
Record api_resource_versions := {
  ver_self : N;
  ver_devices : N;
  ver_sources : N;
  ver_flows : N;
  ver_senders : N;
  ver_receivers : N
}.

Definition api_resource_versions_init : api_resource_versions :=
  {| ver_self := 0; ver_devices := 0; ver_sources := 0;
     ver_flows := 0; ver_senders := 0; ver_receivers := 0 |}.

(** ** Settings (the fields the agent reads) *)

Record settings := {
  pri : service_priority;
  registry_address : option string;   (* [has_field(registry_address)] *)
  registration_port : N;
  registry_version : string;
  discovery_backoff_min : Z;
  discovery_backoff_max : Z;
  discovery_backoff_factor : Q
}.

(** Modelled from the spec: [nmos::service_priorities::no_priority]
    (nmos/mdns.h) is outside this translation unit; the spec reserves
    the value 100 for it. *)
Module service_priorities.
Definition no_priority : service_priority := 100.
End service_priorities.

(** [get_registration_service]: the fallback registry from the
    settings, or the empty [web::uri()]. *)
Definition get_registration_service (s : settings) : uri :=
  match registry_address s with
  | Some host =>
      ("http://" ++ host ++ ":" ++ NilZero.string_of_uint (N.to_uint (registration_port s))
         ++ "/x-nmos/registration/" ++ registry_version s)%string
  | None => ""
  end.

Definition is_empty (u : uri) : bool := String.eqb u "".

(** ** The environment

    The agent shares [model.resources], the grain and [shutdown] with
    other threads under one mutex, talks to registries over HTTP and
    browses mDNS.  All of it is scripted in the [world]:
    - [net]: the replies the network will give, one per request;
    - [others]: what the other threads do each time the agent releases
      the mutex (or blocks on the condition variable), one [change] per
      such period;
    - [mdns]: what each DNS-SD browse resolves, in resolution order. *)

Inductive background_event :=
| heartbeat_due    (* the heartbeat interval elapses: the background task posts a heartbeat *)
| discovery_due.   (* the rediscovery interval elapses: the background task browses again *)

Record change := {
  c_events : list event;                  (* store changes, as events pushed to the grain *)
  c_shutdown : bool;                      (* the server starts shutting down *)
  c_background : option background_event  (* the agent's own background task runs *)
}.

Inductive action :=
| sent (base : uri) (r : request) (rep : reply)
| client_created (base : uri)
| heartbeats_started (base : uri)
| background_cancelled
| error_logged (operation : string) (status : Z)
| waited (seconds : Q)
| browsed
| service_updated (ver : option api_resource_versions).

Record world := {
  shutdown : bool;
  grain_data : list event;        (* [message_grain_data(grain.data)] *)
  grain_updated : tai;            (* [grain.updated] *)
  resources_updated : tai;        (* the most recent [updated] of the other resources *)
  store : list (string * json);   (* the resources the store holds, by path *)
  net : list reply;
  others : list change;
  mdns : list (list (service_priority * uri));
  log : list action
}.

Definition set_shutdown (b : bool) (w : world) : world :=
  {| shutdown := b; grain_data := grain_data w; grain_updated := grain_updated w;
     resources_updated := resources_updated w; store := store w; net := net w;
     others := others w; mdns := mdns w; log := log w |}.

Definition set_grain (data : list event) (t : tai) (w : world) : world :=
  {| shutdown := shutdown w; grain_data := data; grain_updated := t;
     resources_updated := resources_updated w; store := store w; net := net w;
     others := others w; mdns := mdns w; log := log w |}.

Definition set_store (s : list (string * json)) (t : tai) (w : world) : world :=
  {| shutdown := shutdown w; grain_data := grain_data w; grain_updated := grain_updated w;
     resources_updated := t; store := s; net := net w;
     others := others w; mdns := mdns w; log := log w |}.

Definition set_net (n : list reply) (w : world) : world :=
  {| shutdown := shutdown w; grain_data := grain_data w; grain_updated := grain_updated w;
     resources_updated := resources_updated w; store := store w; net := n;
     others := others w; mdns := mdns w; log := log w |}.

Definition set_others (o : list change) (w : world) : world :=
  {| shutdown := shutdown w; grain_data := grain_data w; grain_updated := grain_updated w;
     resources_updated := resources_updated w; store := store w; net := net w;
     others := o; mdns := mdns w; log := log w |}.

Definition set_mdns (m : list (list (service_priority * uri))) (w : world) : world :=
  {| shutdown := shutdown w; grain_data := grain_data w; grain_updated := grain_updated w;
     resources_updated := resources_updated w; store := store w; net := net w;
     others := others w; mdns := m; log := log w |}.

Definition add_log (a : action) (w : world) : world :=
  {| shutdown := shutdown w; grain_data := grain_data w; grain_updated := grain_updated w;
     resources_updated := resources_updated w; store := store w; net := net w;
     others := others w; mdns := mdns w; log := log w ++ [a] |}.

(** Modelled from the spec: [strictly_increasing_update]
    (nmos/resources.h) is outside this translation unit; the spec has
    the grain's [updated] a monotonically increasing watermark that each
    modification bumps. *)
Definition strictly_increasing_update (w : world) : tai :=
  (N.max (grain_updated w) (resources_updated w) + 1)%N.

(** *** The store and the grain, as other threads change them *)

Fixpoint store_erase (p : string) (s : list (string * json)) :=
  match s with
  | [] => []
  | x :: s' => if String.eqb (fst x) p then s' else x :: store_erase p s'
  end.

Fixpoint store_replace (p : string) (d : json) (s : list (string * json)) :=
  match s with
  | [] => []
  | x :: s' => if String.eqb (fst x) p then (p, d) :: s' else x :: store_replace p d s'
  end.

Definition apply_event (e : event) (s : list (string * json)) :=
  match kind e with
  | resource_added_event => s ++ [(path e, post e)]
  | resource_modified_event => store_replace (path e) (post e) s
  | resource_removed_event => store_erase (path e) s
  | resource_unchanged_event => s
  end.

(** Modelled from the spec: the store side (nmos/resources.cpp) is
    outside this translation unit; the spec has the store append each
    change event to the grain and bump its watermark. *)
Definition push_event (w : world) (e : event) : world :=
  let w := set_store (apply_event e (store w)) (strictly_increasing_update w) w in
  set_grain (grain_data w ++ [e]) (strictly_increasing_update w) w.

Definition apply_change (c : change) (w : world) : world :=
  let w := fold_left push_event (c_events c) w in
  set_shutdown (shutdown w || c_shutdown c) w.

(** Modelled from the spec: [make_resource_events] (nmos/query_utils.h)
    is outside this translation unit; the spec has one [sync] event
    for every resource present. *)
Definition make_resource_events (w : world) : list event :=
  map (fun r => {| path := fst r; kind := resource_unchanged_event; post := snd r |}) (store w).

(** ** [node_behaviour_grain_guard] *)

(** The constructor: steal the events from the grain, reset the grain. *)
Definition node_behaviour_grain_guard (events : list event) (w : world)
  : world * list event :=
  (set_grain events (strictly_increasing_update w) w, grain_data w).

(** The destructor: restore any remaining events in front of those
    inserted into the grain since. *)
Definition node_behaviour_grain_guard_destroy (events : list event) (w : world) : world :=
  match events with
  | [] => w
  | _ :: _ => set_grain (events ++ grain_data w) (strictly_increasing_update w) w
  end.

(** ** Waiting and unlocking

    [condition.wait(lock, predicate)] returns at once when the predicate
    holds; otherwise the mutex is released and other threads run, one
    scripted [change] at a time, until it does.  With the script
    exhausted and the predicate false the wait never returns. *)

Section Wait.
Variable L : Type.
Variable predicate : world -> L -> bool.
Variable background : background_event -> world -> L -> world * L.

Definition absorb (c : change) (w : world) (l : L) : world * L :=
  match c_background c with
  | None => (apply_change c w, l)
  | Some b => background b (apply_change c w) l
  end.

Fixpoint wait_script (script : list change) (w : world) (l : L) : option (world * L) :=
  if predicate w l then Some (w, l)
  else match script with
       | [] => None
       | c :: script' =>
           let '(w', l') := absorb c (set_others script' w) l in
           wait_script script' w' l'
       end.

Definition condition_wait (w : world) (l : L) : option (world * L) :=
  wait_script (others w) w l.

(** One period with the mutex released ([reverse_lock_guard]). *)
Definition unlocked (w : world) (l : L) : world * L :=
  match others w with
  | [] => (w, l)
  | c :: script => absorb c (set_others script w) l
  end.
End Wait.

(** ** Tasks: state and exceptions

    A [pplx::task<A>] run to completion: it changes the world and
    either yields a value or rethrows from [get()]. *)

Definition task (A : Type) := world -> world * (exception + A).

Definition ret {A} (a : A) : task A := fun w => (w, inr a).
Definition throw {A} (e : exception) : task A := fun w => (w, inl e).
Definition bind {A B} (t : task A) (k : A -> task B) : task B :=
  fun w => match t w with
           | (w', inl e) => (w', inl e)
           | (w', inr a) => k a w'
           end.
Definition say (a : action) : task unit := fun w => (add_log a w, inr tt).

Declare Scope task_scope.
Delimit Scope task_scope with task.
Notation "x <- c ;; k" := (bind c (fun x => k))
  (at level 61, c at next level, right associativity) : task_scope.
Notation "c ;;; k" := (bind c (fun _ => k))
  (at level 61, right associativity) : task_scope.

(** [client.request(...)]: the next scripted reply; a network with
    nothing left to say refuses the connection. *)
Definition client_request (base : uri) (r : request) : task Z :=
  fun w => match net w with
           | [] => (add_log (sent base r failure) w, inl http_exception)
           | failure :: n => (add_log (sent base r failure) (set_net n w), inl http_exception)
           | response c :: n => (add_log (sent base r (response c)) (set_net n w), inr c)
           end.

Local Open Scope task_scope.

(** ** The registration client *)

(** [make_registration_request_body].  The resource data goes through
    the version downgrade hook (nmos/api_downgrade.h, outside this
    translation unit) on its way out; the body is recorded here by the
    type and the data handed to that hook. *)
Definition make_registration_request_body (t : type) (data : json) : option (type * json) :=
  Some (t, data).

(** [handle_registration_error_conditions]: always logs; throws on a
    server-side (5xx) status only. *)
Definition handle_registration_error_conditions (status : Z) (operation : string)
  : task unit :=
  if is_server_error_status_code status then
    say (error_logged operation status) ;;;
    throw registration_service_exception
  else if is_client_error_status_code status then
    say (error_logged operation status)
  else
    say (error_logged operation status).

(** [request_registration(client, event, gate).get()]: the POST or
    DELETE for one event, with its continuations. *)
Definition request_registration (base : uri) (e : event) : task unit :=
  let id_type := get_node_behaviour_event_id_type e in
  let type := snd id_type in
  let event_type := get_resource_event_type e in
  let creation := resource_event_type_eqb resource_added_event event_type
                  || resource_event_type_eqb resource_unchanged_event event_type in
  let update := resource_event_type_eqb resource_modified_event event_type in
  let deletion := resource_event_type_eqb resource_removed_event event_type in
  if creation then
    let body := make_registration_request_body type (post e) in
    status <- client_request base
                {| request_method := POST; request_path := "/resource"; request_body := body |} ;;
    status <- (if status =? status_codes.Created then ret status
               else if status =? status_codes.OK then
                 deleted <- client_request base
                              {| request_method := DEL;
                                 request_path := ("/resource/" ++ path e)%string;
                                 request_body := None |} ;;
                 (if deleted =? status_codes.NoContent then ret tt
                  else handle_registration_error_conditions deleted "deletion") ;;;
                 client_request base
                   {| request_method := POST; request_path := "/resource"; request_body := body |}
               else ret status) ;;
    if status =? status_codes.Created then ret tt
    else handle_registration_error_conditions status "creation"
  else if update then
    let body := make_registration_request_body type (post e) in
    status <- client_request base
                {| request_method := POST; request_path := "/resource"; request_body := body |} ;;
    if status =? status_codes.OK then ret tt
    else handle_registration_error_conditions status "update"
  else if deletion then
    status <- client_request base
                {| request_method := DEL;
                   request_path := ("/resource/" ++ path e)%string;
                   request_body := None |} ;;
    if status =? status_codes.NoContent then ret tt
    else handle_registration_error_conditions status "deletion"
  else ret tt.

(** [update_node_health(client, id, gate).get()]: one heartbeat; [true]
    to carry on, [false] when the registry does not know the node. *)
Definition update_node_health (base : uri) (self : id) : task bool :=
  status <- client_request base
              {| request_method := POST;
                 request_path := ("/health/nodes/" ++ self)%string;
                 request_body := None |} ;;
  if status =? status_codes.OK then ret true
  else if status =? status_codes.NotFound then
    say (error_logged "heartbeat" status) ;;;
    ret false
  else
    handle_registration_error_conditions status "heartbeat" ;;;
    ret true.

(** ** Control flow of the [for (;;)] loops *)

(** One turn of a loop body. *)
Inductive step (A : Type) :=
| next (a : A)       (* the body ran to its end, or hit [continue] *)
| break (a : A)
| blocked            (* [condition.wait] never returns *)
| crash (u : undefined_behaviour).
Arguments blocked {A}.
Arguments crash {A} u.

(** A whole call. *)
Inductive outcome (A : Type) :=
| returned (a : A)
| waiting            (* still blocked in [condition.wait] when the script ends *)
| out_of_fuel
| undefined (u : undefined_behaviour).
Arguments waiting {A}.
Arguments out_of_fuel {A}.
Arguments undefined {A} u.

Section Loop.
Variable S : Type.
Variable body : S -> step S.

Fixpoint loop (fuel : nat) (s : S) : outcome S :=
  match fuel with
  | O => out_of_fuel
  | Datatypes.S fuel' =>
      match body s with
      | next s' => loop fuel' s'
      | break s' => returned s'
      | blocked => waiting
      | crash u => undefined u
      end
  end.
End Loop.

(** ** [initial_registration] *)

Module InitialRegistration.

Record locals := {
  self_id : id;
  registration_services : multimap;
  client : option uri;
  registration_service_error : bool;
  node_registered : bool;
  most_recent_update : tai
}.

Definition set_self_id (i : id) (l : locals) : locals :=
  {| self_id := i; registration_services := registration_services l; client := client l;
     registration_service_error := registration_service_error l;
     node_registered := node_registered l; most_recent_update := most_recent_update l |}.

Definition set_registration_services (m : multimap) (l : locals) : locals :=
  {| self_id := self_id l; registration_services := m; client := client l;
     registration_service_error := registration_service_error l;
     node_registered := node_registered l; most_recent_update := most_recent_update l |}.

Definition set_client (c : option uri) (l : locals) : locals :=
  {| self_id := self_id l; registration_services := registration_services l; client := c;
     registration_service_error := registration_service_error l;
     node_registered := node_registered l; most_recent_update := most_recent_update l |}.

Definition set_registration_service_error (b : bool) (l : locals) : locals :=
  {| self_id := self_id l; registration_services := registration_services l; client := client l;
     registration_service_error := b;
     node_registered := node_registered l; most_recent_update := most_recent_update l |}.

Definition set_node_registered (b : bool) (l : locals) : locals :=
  {| self_id := self_id l; registration_services := registration_services l; client := client l;
     registration_service_error := registration_service_error l;
     node_registered := b; most_recent_update := most_recent_update l |}.

Definition set_most_recent_update (t : tai) (l : locals) : locals :=
  {| self_id := self_id l; registration_services := registration_services l; client := client l;
     registration_service_error := registration_service_error l;
     node_registered := node_registered l; most_recent_update := t |}.

(** The predicate of [condition.wait]. *)
Definition predicate (w : world) (l : locals) : bool :=
  shutdown w || registration_service_error l || node_registered l
  || (most_recent_update l <? grain_updated w)%N.

(** No background task of the agent runs during initial registration. *)
Definition background (_ : background_event) (w : world) (l : locals) : world * locals :=
  (w, l).

Definition client_is (base_uri : uri) (l : locals) : bool :=
  match client l with
  | Some c => String.eqb c base_uri
  | None => false
  end.

(** The event that starts a registration: the node's 'added' or 'sync'. *)
Definition is_node_creation (e : event) : bool :=
  type_eqb node (snd (get_node_behaviour_event_id_type e))
  && (resource_event_type_eqb resource_added_event (get_resource_event_type e)
      || resource_event_type_eqb resource_unchanged_event (get_resource_event_type e)).

(** [while (0 != events.size()) { ... }].  After a caught exception the
    buffer is unchanged and the flag makes the next test break, so the
    turn returns at once. *)
Fixpoint drain (base_uri : uri) (events : list event) (w : world) (l : locals)
  : world * locals * list event :=
  match events with
  | [] => (w, l, [])
  | e :: rest =>
      if shutdown w || registration_service_error l || node_registered l
      then (w, l, events)
      else if negb (is_node_creation e)
      then drain base_uri rest w l                       (* [events.erase(0); continue;] *)
      else
        let l := set_self_id (fst (get_node_behaviour_event_id_type e)) l in
        let '(w, r) := request_registration base_uri e w in
        let '(w, l) := unlocked background w l in
        match r with
        | inr _ => drain base_uri rest w (set_node_registered true l)
        | inl _ => (w, set_registration_service_error true l, events)
        end
  end.

(** A turn of the loop from the test that leaves it to its end:
    select the top registry, drain the grain under the guard. *)
Definition turn (w : world) (l : locals) : step (world * locals) :=
  if shutdown w || empty (registration_services l) || node_registered l
  then break (w, l)
  else
    match top_registration_service (registration_services l) with
    | None => crash dereference_end
    | Some base_uri =>
        let '(w, l) :=
          if client_is base_uri l then (w, l)
          else (add_log (client_created base_uri) w, set_client (Some base_uri) l) in
        let '(w, events) := node_behaviour_grain_guard [] w in
        let '(w, l, events) := drain base_uri events w l in
        let l := set_most_recent_update (grain_updated w) l in
        let w := node_behaviour_grain_guard_destroy events w in
        next (w, l)
    end.

(** A whole turn: wait, pop the registry that failed, carry on. *)
Definition iteration (wl : world * locals) : step (world * locals) :=
  match condition_wait predicate background (fst wl) (snd wl) with
  | None => blocked
  | Some (w, l) =>
      if registration_service_error l
      then match pop_registration_service (registration_services l) with
           | Some m => turn w (set_registration_services m l)
           | None => crash erase_end
           end
      else turn w l
  end.

(** The function: reset the grain to one 'sync' event per resource,
    then loop.  (The grain was inserted by the thread itself and is
    not deleted by anyone else, so [find(grain_id)] succeeds.) *)
Definition initial_registration (fuel : nat) (self : id) (services : multimap) (w : world)
  : outcome (world * locals) :=
  let w := set_grain (make_resource_events w) (strictly_increasing_update w) w in
  loop iteration fuel
    (w, {| self_id := self; registration_services := services; client := None;
           registration_service_error := false; node_registered := false;
           most_recent_update := 0%N |}).

End InitialRegistration.

(** ** [registered_operation] *)

Module RegisteredOperation.

Record locals := {
  registration_services : multimap;
  client : option uri;
  background_heartbeats : bool;        (* the heartbeat task is running *)
  registration_service_error : bool;
  node_unregistered : bool;
  most_recent_update : tai
}.

Definition set_registration_services (m : multimap) (l : locals) : locals :=
  {| registration_services := m; client := client l;
     background_heartbeats := background_heartbeats l;
     registration_service_error := registration_service_error l;
     node_unregistered := node_unregistered l; most_recent_update := most_recent_update l |}.

Definition set_client (c : option uri) (l : locals) : locals :=
  {| registration_services := registration_services l; client := c;
     background_heartbeats := background_heartbeats l;
     registration_service_error := registration_service_error l;
     node_unregistered := node_unregistered l; most_recent_update := most_recent_update l |}.

Definition set_background_heartbeats (b : bool) (l : locals) : locals :=
  {| registration_services := registration_services l; client := client l;
     background_heartbeats := b;
     registration_service_error := registration_service_error l;
     node_unregistered := node_unregistered l; most_recent_update := most_recent_update l |}.

Definition set_registration_service_error (b : bool) (l : locals) : locals :=
  {| registration_services := registration_services l; client := client l;
     background_heartbeats := background_heartbeats l;
     registration_service_error := b;
     node_unregistered := node_unregistered l; most_recent_update := most_recent_update l |}.

Definition set_node_unregistered (b : bool) (l : locals) : locals :=
  {| registration_services := registration_services l; client := client l;
     background_heartbeats := background_heartbeats l;
     registration_service_error := registration_service_error l;
     node_unregistered := b; most_recent_update := most_recent_update l |}.

Definition set_most_recent_update (t : tai) (l : locals) : locals :=
  {| registration_services := registration_services l; client := client l;
     background_heartbeats := background_heartbeats l;
     registration_service_error := registration_service_error l;
     node_unregistered := node_unregistered l; most_recent_update := t |}.

Section WithSelf.
Variable self_id : id.

Definition predicate (w : world) (l : locals) : bool :=
  shutdown w || registration_service_error l || node_unregistered l
  || (most_recent_update l <? grain_updated w)%N.

(** One turn of the background [do_while] and, when it ends the
    loop, the continuation that updates the flags. *)
Definition background (b : background_event) (w : world) (l : locals) : world * locals :=
  match b, background_heartbeats l, client l with
  | heartbeat_due, true, Some base_uri =>
      match update_node_health base_uri self_id w with
      | (w, inr true) => (w, l)
      | (w, inr false) =>
          (w, set_node_unregistered true (set_background_heartbeats false l))
      | (w, inl _) =>
          (w, set_registration_service_error true (set_background_heartbeats false l))
      end
  | _, _, _ => (w, l)
  end.

(** [background_cancellation_source.cancel(); background_heartbeats.wait();]
    without the lock. *)
Definition cancel (w : world) (l : locals) : world * locals :=
  let '(w, l) := unlocked background w l in
  (add_log background_cancelled w, set_background_heartbeats false l).

Definition client_is (base_uri : uri) (l : locals) : bool :=
  match client l with
  | Some c => String.eqb c base_uri
  | None => false
  end.

(** The block that adopts the top registry: a new client, the first
    heartbeat with the lock held, then the background heartbeats.
    The boolean is [false] where the source says [continue]. *)
Definition select (base_uri : uri) (w : world) (l : locals) : world * locals * bool :=
  if client_is base_uri l then (w, l, true)
  else
    let w := add_log (client_created base_uri) w in
    let l := set_client (Some base_uri) l in
    let '(w, r) := update_node_health base_uri self_id w in
    let l := match r with
             | inr node_registered =>
                 if negb node_registered then set_node_unregistered true l else l
             | inl _ => set_registration_service_error true l
             end in
    if shutdown w || registration_service_error l || node_unregistered l
    then (w, l, false)
    else (add_log (heartbeats_started base_uri) w, set_background_heartbeats true l, true).

(** [while (0 != events.size()) { ... }], as in initial registration. *)
Fixpoint drain (base_uri : uri) (events : list event) (w : world) (l : locals)
  : world * locals * list event :=
  match events with
  | [] => (w, l, [])
  | e :: rest =>
      if shutdown w || registration_service_error l || node_unregistered l
      then (w, l, events)
      else
        let id_type := get_node_behaviour_event_id_type e in
        let event_type := get_resource_event_type e in
        let '(w, r) := request_registration base_uri e w in
        let '(w, l) := unlocked background w l in
        match r with
        | inr _ =>
            let l := if String.eqb self_id (fst id_type)
                        && resource_event_type_eqb resource_removed_event event_type
                     then set_node_unregistered true l else l in
            drain base_uri rest w l
        | inl _ => (w, set_registration_service_error true l, events)
        end
  end.

(** A turn of the loop from the test that leaves it to its end:
    adopt the top registry, drain the grain under the guard. *)
Definition turn (w : world) (l : locals) : step (world * locals) :=
  if shutdown w || empty (registration_services l) || node_unregistered l
  then break (w, l)
  else
    match top_registration_service (registration_services l) with
    | None => crash dereference_end
    | Some base_uri =>
        match select base_uri w l with
        | (w, l, false) => next (w, l)
        | (w, l, true) =>
            let '(w, events) := node_behaviour_grain_guard [] w in
            let l := set_most_recent_update (grain_updated w) l in
            let '(w, l, events) := drain base_uri events w l in
            let l := set_most_recent_update (grain_updated w) l in
            let w := node_behaviour_grain_guard_destroy events w in
            next (w, l)
        end
    end.

(** A whole turn: wait, pop the registry that failed and cancel the
    heartbeats, carry on. *)
Definition iteration (wl : world * locals) : step (world * locals) :=
  match condition_wait predicate background (fst wl) (snd wl) with
  | None => blocked
  | Some (w, l) =>
      if registration_service_error l
      then match pop_registration_service (registration_services l) with
           | Some m => let '(w, l) := cancel w (set_registration_services m l) in
                       turn w l
           | None => crash erase_end
           end
      else turn w l
  end.

Definition registered_operation (fuel : nat) (services : multimap) (w : world)
  : outcome (world * locals) :=
  match loop iteration fuel
          (w, {| registration_services := services; client := None;
                 background_heartbeats := false;
                 registration_service_error := false; node_unregistered := false;
                 most_recent_update := 0%N |}) with
  | returned (w, l) => returned (cancel w l)
  | waiting => waiting
  | out_of_fuel => out_of_fuel
  | undefined u => undefined u
  end.
End WithSelf.

(** Two states of the locals with the same registry list and client. *)
Definition same_registry (l l' : locals) : Prop :=
  registration_services l' = registration_services l /\ client l' = client l.

End RegisteredOperation.

(** ** Discovery *)

(** [discover_registration_services].  Modelled from the spec:
    [nmos::experimental::resolve_service] (nmos/mdns.h) is outside this
    translation unit; the spec has the browse collect
    [{priority, uri}] pairs into the priority-ordered multimap. *)
Definition discover_registration_services (fallback_registration_service : uri) (w : world)
  : world * multimap :=
  let found := match mdns w with [] => [] | f :: _ => f end in
  let w := add_log browsed (set_mdns (tl (mdns w)) w) in
  let registration_services := of_insertions found in
  if negb (empty registration_services) then (w, registration_services)
  else if negb (is_empty fallback_registration_service)
  then (w, insert (service_priorities.no_priority, fallback_registration_service)
                  registration_services)
  else (w, registration_services).

(** ** [peer_to_peer_operation] *)

(** [update_resource_version]. *)
Definition update_resource_version (ver : api_resource_versions) (t : type)
  : api_resource_versions :=
  let ver := if type_eqb node t
             then {| ver_self := ver_self ver + 1; ver_devices := ver_devices ver;
                     ver_sources := ver_sources ver; ver_flows := ver_flows ver;
                     ver_senders := ver_senders ver; ver_receivers := ver_receivers ver |}
             else ver in
  let ver := if type_eqb source t
             then {| ver_self := ver_self ver; ver_devices := ver_devices ver;
                     ver_sources := ver_sources ver + 1; ver_flows := ver_flows ver;
                     ver_senders := ver_senders ver; ver_receivers := ver_receivers ver |}
             else ver in
  let ver := if type_eqb flow t
             then {| ver_self := ver_self ver; ver_devices := ver_devices ver;
                     ver_sources := ver_sources ver; ver_flows := ver_flows ver + 1;
                     ver_senders := ver_senders ver; ver_receivers := ver_receivers ver |}
             else ver in
  let ver := if type_eqb device t
             then {| ver_self := ver_self ver; ver_devices := ver_devices ver + 1;
                     ver_sources := ver_sources ver; ver_flows := ver_flows ver;
                     ver_senders := ver_senders ver; ver_receivers := ver_receivers ver |}
             else ver in
  let ver := if type_eqb sender t
             then {| ver_self := ver_self ver; ver_devices := ver_devices ver;
                     ver_sources := ver_sources ver; ver_flows := ver_flows ver;
                     ver_senders := ver_senders ver + 1; ver_receivers := ver_receivers ver |}
             else ver in
  if type_eqb receiver t
  then {| ver_self := ver_self ver; ver_devices := ver_devices ver;
          ver_sources := ver_sources ver; ver_flows := ver_flows ver;
          ver_senders := ver_senders ver; ver_receivers := ver_receivers ver + 1 |}
  else ver.

(** [update_node_service]: with the 'ver_' records, or ([None]) without. *)
Definition update_node_service (s : settings) (ver : option api_resource_versions)
  (w : world) : world :=
  if negb (service_priorities.no_priority =? pri s)
  then add_log (service_updated ver) w
  else w.

Module PeerToPeer.

Record locals := {
  registration_services : multimap;
  registration_services_discovered : bool;
  background_discovery : bool;         (* the rediscovery task is running *)
  ver : api_resource_versions;
  most_recent_update : tai
}.

Section WithSettings.
Variable s : settings.

Definition predicate (w : world) (l : locals) : bool :=
  shutdown w || registration_services_discovered l
  || (most_recent_update l <? grain_updated w)%N.

(** One turn of the background [do_while] and, when discovery
    succeeds, the continuation that sets the flag. *)
Definition background (b : background_event) (w : world) (l : locals) : world * locals :=
  match b, background_discovery l with
  | discovery_due, true =>
      let '(w, found) := discover_registration_services (get_registration_service s) w in
      if empty found
      then (w, {| registration_services := found;
                  registration_services_discovered := registration_services_discovered l;
                  background_discovery := true;
                  ver := ver l; most_recent_update := most_recent_update l |})
      else (w, {| registration_services := found;
                  registration_services_discovered := true;
                  background_discovery := false;
                  ver := ver l; most_recent_update := most_recent_update l |})
  | _, _ => (w, l)
  end.

(** The events of one drain folded into the counters. *)
Definition update_versions (events : list event) (v : api_resource_versions) :=
  fold_left (fun v e => update_resource_version v (snd (get_node_behaviour_event_id_type e)))
            events v.

Definition iteration (wl : world * locals) : step (world * locals) :=
  match condition_wait predicate background (fst wl) (snd wl) with
  | None => blocked
  | Some (w, l) =>
      if shutdown w || registration_services_discovered l then break (w, l)
      else
        let '(w, events) := node_behaviour_grain_guard [] w in
        (* without the lock *)
        let v := update_versions events (ver l) in
        let w := update_node_service s (Some v) w in
        let events : list event := [] in                       (* job done *)
        let '(w, l) := unlocked background w l in
        let w := node_behaviour_grain_guard_destroy events w in
        next (w, {| registration_services := registration_services l;
                    registration_services_discovered := registration_services_discovered l;
                    background_discovery := background_discovery l;
                    ver := v; most_recent_update := grain_updated w |})
  end.

Definition peer_to_peer_operation (fuel : nat) (services : multimap) (w : world)
  : outcome (world * locals) :=
  let v := api_resource_versions_init in
  let w := update_node_service s (Some v) w in
  match loop iteration fuel
          (w, {| registration_services := services;
                 registration_services_discovered := false;
                 background_discovery := true;
                 ver := v; most_recent_update := 0%N |}) with
  | returned (w, l) =>
      let w := update_node_service s None w in                 (* withdraw the 'ver_' records *)
      let '(w, l) := unlocked background w l in
      returned (add_log background_cancelled w,
                {| registration_services := registration_services l;
                   registration_services_discovered := registration_services_discovered l;
                   background_discovery := false;
                   ver := ver l; most_recent_update := most_recent_update l |})
  | waiting => waiting
  | out_of_fuel => out_of_fuel
  | undefined u => undefined u
  end.
End WithSettings.

End PeerToPeer.

(** ** [node_behaviour_thread] *)

Inductive mode_t :=
| initial_discovery
| initial_registration
| registered_operation
| rediscovery
| peer_to_peer_operation.

(** The variables of the thread that outlive one turn of its loop. *)
Record thread := {
  mode : mode_t;
  registration_services : multimap;
  discovery_backoff : Q;          (* a [double]; idealised as a rational *)
  self_id : id
}.

(** [(std::max)(a, b)] and [(std::min)(a, b)] on doubles. *)
Definition Qlt_bool (a b : Q) : bool := negb (Qle_bool b a).
Definition std_max (a b : Q) : Q := if Qlt_bool a b then b else a.
Definition std_min (a b : Q) : Q := if Qlt_bool b a then b else a.

(** The mode after [details::registered_operation] returns: a 404 on
    heartbeat (or a clean unregistration) leaves registries to
    re-register with; otherwise none is left and a re-query is due. *)
Definition after_registered_operation (services : multimap) : mode_t :=
  if negb (empty services) then initial_registration else rediscovery.

(** The thread before its first turn. *)
Definition thread_init : thread :=
  {| mode := initial_discovery; registration_services := [];
     discovery_backoff := 0%Q; self_id := "" |}.

Section Thread.
Variable s : settings.
Variable fuel : nat.     (* bounds the turns of each operating loop *)

(** [condition.wait_for(lock, 1000 * discovery_backoff ms, shutdown)]. *)
Definition wait_for (seconds : Q) (w : world) : world :=
  fst (unlocked (fun _ w (l : unit) => (w, l)) (add_log (waited seconds) w) tt).

(** The [switch (mode)] of one turn. *)
Definition node_behaviour_case (t : thread) (w : world) : outcome (thread * world) :=
  match mode t with
  | initial_discovery =>
      let w := if negb (Qeq_bool 0 (discovery_backoff t))
               then wait_for (discovery_backoff t) w else w in
      if negb (Qeq_bool 0 (discovery_backoff t)) && shutdown w
      then returned (t, w)
      else
        let '(w, services) := discover_registration_services (get_registration_service s) w in
        if negb (empty services)
        then returned
               ({| mode := initial_registration; registration_services := services;
                   discovery_backoff :=
                     std_min (std_max (inject_Z (discovery_backoff_min s))
                                      (discovery_backoff t * discovery_backoff_factor s))
                             (inject_Z (discovery_backoff_max s));
                   self_id := self_id t |}, w)
        else returned
               ({| mode := peer_to_peer_operation; registration_services := services;
                   discovery_backoff := discovery_backoff t; self_id := self_id t |}, w)
  | initial_registration =>
      match InitialRegistration.initial_registration fuel (self_id t) (registration_services t) w with
      | returned (w, l) =>
          let services := InitialRegistration.registration_services l in
          if negb (empty services)
          then returned
                 ({| mode := registered_operation; registration_services := services;
                     discovery_backoff := 0;
                     self_id := InitialRegistration.self_id l |}, w)
          else returned
                 ({| mode := initial_discovery; registration_services := services;
                     discovery_backoff := discovery_backoff t;
                     self_id := InitialRegistration.self_id l |}, w)
      | waiting => waiting
      | out_of_fuel => out_of_fuel
      | undefined u => undefined u
      end
  | registered_operation =>
      match RegisteredOperation.registered_operation (self_id t) fuel (registration_services t) w with
      | returned (w, l) =>
          let services := RegisteredOperation.registration_services l in
          returned
            ({| mode := after_registered_operation services;
                registration_services := services;
                discovery_backoff := discovery_backoff t; self_id := self_id t |}, w)
      | waiting => waiting
      | out_of_fuel => out_of_fuel
      | undefined u => undefined u
      end
  | rediscovery =>
      let '(w, services) := discover_registration_services (get_registration_service s) w in
      returned
        ({| mode := if negb (empty services) then registered_operation
                    else peer_to_peer_operation;
            registration_services := services;
            discovery_backoff := discovery_backoff t; self_id := self_id t |}, w)
  | peer_to_peer_operation =>
      match PeerToPeer.peer_to_peer_operation s fuel (registration_services t) w with
      | returned (w, l) =>
          let services := PeerToPeer.registration_services l in
          returned
            ({| mode := if negb (empty services) then initial_registration
                        else peer_to_peer_operation;
                registration_services := services;
                discovery_backoff := discovery_backoff t; self_id := self_id t |}, w)
      | waiting => waiting
      | out_of_fuel => out_of_fuel
      | undefined u => undefined u
      end
  end.

(** [for (;;) { if (shutdown) break; switch (mode) ... }], for at most
    [turns] turns. *)
Fixpoint node_behaviour_thread (turns : nat) (t : thread) (w : world)
  : outcome (thread * world) :=
  match turns with
  | O => out_of_fuel
  | S turns' =>
      if shutdown w then returned (t, w)
      else match node_behaviour_case t w with
           | returned (t', w') => node_behaviour_thread turns' t' w'
           | waiting => waiting
           | out_of_fuel => out_of_fuel
           | undefined u => undefined u
           end
  end.
End Thread.

(** ** Vocabulary of the properties *)

(** Two worlds that differ at most in what the transports own (the
    network and mDNS scripts, the log): the store, the grain, the
    shutdown flag and the other threads' script are the same. *)
Definition same_store (w w' : world) : Prop :=
  shutdown w' = shutdown w
  /\ grain_data w' = grain_data w
  /\ grain_updated w' = grain_updated w
  /\ resources_updated w' = resources_updated w
  /\ store w' = store w
  /\ others w' = others w.

(** A task that leaves the store side alone. *)
Definition transport_only {A} (t : task A) : Prop :=
  forall w, same_store w (fst (t w)).

(** The events pushed to the grain by a run of changes. *)
Definition arrivals (used : list change) : list event := flat_map c_events used.


(** The log of the second world continues that of the first. *)
Definition log_grows (w w' : world) : Prop := exists m, log w' = log w ++ m.

(** A task under which the log only grows. *)
Definition task_log_grows {A} (t : task A) : Prop := forall w, log_grows w (fst (t w)).

(** A first heartbeat after which the agent carries on with the
    registry: answered, and neither 404 nor 5xx. *)
Definition heartbeat_accepted (r : reply) : bool :=
  match r with
  | failure => false
  | response c => negb (c =? status_codes.NotFound) && negb (is_server_error_status_code c)
  end.


(** The requests among the actions of a log, in order. *)
Fixpoint requests_sent (l : list action) : list (uri * request * reply) :=
  match l with
  | [] => []
  | sent base r rep :: l' => (base, r, rep) :: requests_sent l'
  | _ :: l' => requests_sent l'
  end.

(** The reply the next request will get ([client_request]). *)
Definition next_reply (n : list reply) : reply :=
  match n with
  | [] => failure
  | r :: _ => r
  end.

(** A server-side or connectivity issue: 5xx, no connection, timeout. *)
Definition server_side (r : reply) : bool :=
  match r with
  | failure => true
  | response c => is_server_error_status_code c
  end.

(** An event that calls for a registration creation. *)
Definition is_creation (e : event) : bool :=
  resource_event_type_eqb resource_added_event (get_resource_event_type e)
  || resource_event_type_eqb resource_unchanged_event (get_resource_event_type e).

(** The POST and the DELETE the client makes for an event. *)
Definition post_of (e : event) : request :=
  {| request_method := POST; request_path := "/resource";
     request_body := make_registration_request_body
                       (snd (get_node_behaviour_event_id_type e)) (post e) |}.

Definition delete_of (e : event) : request :=
  {| request_method := DEL; request_path := ("/resource/" ++ path e)%string;
     request_body := None |}.

(** The heartbeat of a node. *)
Definition health_of (self : id) : request :=
  {| request_method := POST; request_path := ("/health/nodes/" ++ self)%string;
     request_body := None |}.

(** The 'ver_' publications among the actions of a log, in order. *)
Fixpoint publications (l : list action) : list api_resource_versions :=
  match l with
  | [] => []
  | service_updated (Some v) :: l' => v :: publications l'
  | _ :: l' => publications l'
  end.





(** ** Concrete inputs for the examples *)

Module Example.
Definition registry_a : uri := "http://a:8235/x-nmos/registration/v1.2".
Definition registry_b : uri := "http://b:8235/x-nmos/registration/v1.2".

Definition added (p : string) : event :=
  {| path := p; kind := resource_added_event; post := "{}" |}.
Definition removed (p : string) : event :=
  {| path := p; kind := resource_removed_event; post := "{}" |}.

(** No resources, nothing on the network, nobody else running. *)
Definition quiet : world :=
  {| shutdown := false; grain_data := []; grain_updated := 0%N; resources_updated := 0%N;
     store := []; net := []; others := []; mdns := []; log := [] |}.

Definition with_store (s : list (string * json)) (w : world) : world :=
  set_store s (resources_updated w) w.

Definition arrive (events : list event) : change :=
  {| c_events := events; c_shutdown := false; c_background := None |}.
Definition background_runs (b : background_event) : change :=
  {| c_events := []; c_shutdown := false; c_background := Some b |}.
Definition shut_down : change :=
  {| c_events := []; c_shutdown := true; c_background := None |}.

Definition some_settings : settings :=
  {| pri := 0; registry_address := None; registration_port := 8235%N;
     registry_version := "v1.2";
     discovery_backoff_min := 1; discovery_backoff_max := 30;
     discovery_backoff_factor := 3 # 2 |}.

(** The locals of registered operation at entry. *)
Definition registered (services : multimap) : RegisteredOperation.locals :=
  {| RegisteredOperation.registration_services := services;
     RegisteredOperation.client := None;
     RegisteredOperation.background_heartbeats := false;
     RegisteredOperation.registration_service_error := false;
     RegisteredOperation.node_unregistered := false;
     RegisteredOperation.most_recent_update := 0%N |}.
(** The locals of initial registration at entry. *)
Definition registering (services : multimap) : InitialRegistration.locals :=
  {| InitialRegistration.self_id := "";
     InitialRegistration.registration_services := services;
     InitialRegistration.client := None;
     InitialRegistration.registration_service_error := false;
     InitialRegistration.node_registered := false;
     InitialRegistration.most_recent_update := 0%N |}.
(** The locals of registered operation with a registry adopted and the
    heartbeats running. *)
Definition operating (services : multimap) (base : uri) : RegisteredOperation.locals :=
  {| RegisteredOperation.registration_services := services;
     RegisteredOperation.client := Some base;
     RegisteredOperation.background_heartbeats := true;
     RegisteredOperation.registration_service_error := false;
     RegisteredOperation.node_unregistered := false;
     RegisteredOperation.most_recent_update := 0%N |}.

(** The thread in a given mode, knowing registry a and node n1. *)
Definition thread_in (m : mode_t) : thread :=
  {| mode := m; registration_services := [(1, registry_a)];
     discovery_backoff := 0; self_id := "n1" |}.
(** A node n1 that registers with registry a, is then replaced in the
    store by a node n2, until the server shuts down. *)
Definition re_registration : world :=
  set_others [arrive []; arrive [removed "nodes/n1"; added "nodes/n2"];
              arrive []; arrive []; arrive []; shut_down]
    (set_mdns [[(100, registry_a)]]
       (set_net [response 201; response 200; response 204; response 201; response 200]
          (with_store [("nodes/n1", "{}")] quiet))).

End Example.

(** ** Vocabulary of the further properties *)

(** A registry list whose entries come in the order of their keys. *)
Definition by_priority (m : multimap) : Prop :=
  StronglySorted (fun a b => fst a <= fst b) m.

(** The arrows of [switch (mode)] in [node_behaviour_thread]. *)
Definition transition (m m' : mode_t) : bool :=
  match m, m' with
  | initial_discovery, (initial_discovery | initial_registration | peer_to_peer_operation)
  | initial_registration, (registered_operation | initial_discovery)
  | registered_operation, (initial_registration | rediscovery)
  | rediscovery, (registered_operation | peer_to_peer_operation)
  | peer_to_peer_operation, (initial_registration | peer_to_peer_operation) => true
  | _, _ => false
  end.

(** The first request an event calls for, the status that request
    expects, and the name of the operation in the log. *)
Definition request_of (e : event) : request :=
  match get_resource_event_type e with
  | resource_removed_event => delete_of e
  | _ => post_of e
  end.

Definition expected_of (e : event) : Z :=
  match get_resource_event_type e with
  | resource_added_event | resource_unchanged_event => status_codes.Created
  | resource_modified_event => status_codes.OK
  | resource_removed_event => status_codes.NoContent
  end.

Definition operation_of (e : event) : string :=
  match get_resource_event_type e with
  | resource_added_event | resource_unchanged_event => "creation"
  | resource_modified_event => "update"
  | resource_removed_event => "deletion"
  end.

(** The 'removed' event of the node itself, as registered operation
    tests for it. *)
Definition is_own_removal (self : id) (e : event) : bool :=
  String.eqb self (fst (get_node_behaviour_event_id_type e))
  && resource_event_type_eqb resource_removed_event (get_resource_event_type e).

(** How many of the events are of a given resource type. *)
Definition count_type (t : type) (events : list event) : N :=
  N.of_nat (List.length
              (filter (fun e => type_eqb t (snd (get_node_behaviour_event_id_type e)))
                      events)).

(** The updates of the node's mDNS service among the actions of a log:
    with the 'ver_' records ([Some]) or without ([None]). *)
Fixpoint advertisements (l : list action) : list (option api_resource_versions) :=
  match l with
  | [] => []
  | service_updated v :: l' => v :: advertisements l'
  | _ :: l' => advertisements l'
  end.

(** A script in which the other threads neither shut the server down
    nor let the agent's background task run. *)
Definition undisturbed (script : list change) : Prop :=
  Forall (fun c => c_shutdown c = false /\ c_background c = None) script.

(** A status that ends the handling of an event with one request: not
    a server-side error, and not the 200 that makes a creation delete
    and retry. *)
Definition settles (e : event) (c : Z) : Prop :=
  is_server_error_status_code c = false
  /\ (is_creation e = true -> c <> status_codes.OK).

(** The log entry of the one request of an event answered [c]. *)
Definition dispatch (base : uri) (ec : event * Z) : uri * request * reply :=
  (base, request_of (fst ec), response (snd ec)).

(** Requests that are all heartbeats of the node. *)
Definition only_heartbeats (self : id) (l : list (uri * request * reply)) : Prop :=
  Forall (fun x => snd (fst x) = health_of self) l.

(** The log of the second world continues that of the first without
    any update of the node's mDNS service. *)
Definition grows_unadvertised (w w' : world) : Prop :=
  exists m, log w' = log w ++ m /\ advertisements m = [].

(** What holds of a peer-to-peer session entered with log [log0] while
    its loop runs: every update of the service so far carries the 'ver_'
    records, and there is none at all when the node is not advertised. *)
Definition advertised_with_versions (s : settings) (log0 : list action) (w : world) : Prop :=
  exists notes,
    log w = log0 ++ notes
    /\ advertisements notes
       = if service_priorities.no_priority =? pri s then []
         else map Some (publications notes).

(** ** Further concrete inputs *)

Module Sample.
(** Settings with a fallback registry configured. *)
Definition fallback_settings : settings :=
  {| pri := 0; registry_address := Some "reg"; registration_port := 8235%N;
     registry_version := "v1.2";
     discovery_backoff_min := 1; discovery_backoff_max := 30;
     discovery_backoff_factor := 3 # 2 |}.

(** Nothing advertised on the network; the node n1 in the store; the
    registry accepts the node and its first heartbeat; then the server
    shuts down. *)
Definition fallback_run : world :=
  set_others [Example.arrive []; Example.shut_down]
    (set_net [response 201; response 200]
       (Example.with_store [("nodes/n1", "{}")] Example.quiet)).

Definition modified (p : string) : event :=
  {| path := p; kind := resource_modified_event; post := "{}" |}.
End Sample.

(** * Properties *)

(** ** The registry list *)

Lemma of_insertions_snoc (l : list (service_priority * uri)) x :
  of_insertions (l ++ [x]) = insert x (of_insertions l).
Proof. unfold of_insertions. now rewrite fold_left_app. Qed.

Lemma without_snoc_last (l : list (service_priority * uri)) x :
  without (List.length l) (l ++ [x]) = l.
Proof. induction l as [|a l IH]; simpl; [reflexivity | now rewrite IH]. Qed.

Lemma without_snoc_inside (l : list (service_priority * uri)) x i :
  (i < List.length l)%nat -> without i (l ++ [x]) = without i l ++ [x].
Proof.
  revert i; induction l as [|a l IH]; intros i Hi; simpl in *; [lia|].
  destruct i as [|i]; [reflexivity|]. simpl. rewrite IH by lia. reflexivity.
Qed.

Lemma top_registration_service_none (m : multimap) :
  top_registration_service m = None <-> m = [].
Proof. destruct m; simpl; split; congruence. Qed.

(** The front of a multimap built by insertions is the oldest insertion
    of least priority, and the rest is what the other insertions build. *)
Lemma of_insertions_front (ins : list (service_priority * uri)) :
  ins <> [] ->
  exists i e,
    nth_error ins i = Some e
    /\ of_insertions ins = e :: of_insertions (without i ins)
    /\ (forall j e', nth_error ins j = Some e' -> fst e <= fst e')
    /\ (forall j e', (j < i)%nat -> nth_error ins j = Some e' -> fst e < fst e').
Proof.
  induction ins as [|x l IH] using rev_ind; [congruence|]. intros _.
  destruct l as [|y l'].
  - exists O, x. simpl. repeat split.
    + intros [|[|j]] e' H; simpl in H; inversion H; subst; lia.
    + intros j e' Hj; lia.
  - destruct IH as (i & e & Hnth & Hfront & Hmin & Htie); [congruence|].
    set (l := y :: l') in *.
    assert (Hi : (i < List.length l)%nat) by (apply nth_error_Some; congruence).
    rewrite of_insertions_snoc, Hfront. simpl insert.
    destruct (fst x <? fst e) eqn:Hlt.
    + apply Z.ltb_lt in Hlt.
      exists (List.length l), x. repeat split.
      * rewrite nth_error_app2 by lia. now rewrite Nat.sub_diag.
      * now rewrite without_snoc_last, Hfront.
      * intros j e' H. destruct (Nat.lt_ge_cases j (List.length l)) as [Hj|Hj].
        -- rewrite nth_error_app1 in H by lia. specialize (Hmin _ _ H). lia.
        -- rewrite nth_error_app2 in H by lia.
           destruct (j - List.length l)%nat as [|[|k]]; simpl in H; inversion H; subst; lia.
      * intros j e' Hj H. rewrite nth_error_app1 in H by lia.
        specialize (Hmin _ _ H). lia.
    + apply Z.ltb_ge in Hlt.
      exists i, e. repeat split.
      * rewrite nth_error_app1 by lia. exact Hnth.
      * now rewrite without_snoc_inside, of_insertions_snoc by lia.
      * intros j e' H. destruct (Nat.lt_ge_cases j (List.length l)) as [Hj|Hj].
        -- rewrite nth_error_app1 in H by lia. eauto.
        -- rewrite nth_error_app2 in H by lia.
           destruct (j - List.length l)%nat as [|[|k]]; simpl in H; inversion H; subst; lia.
      * intros j e' Hj H. rewrite nth_error_app1 in H by lia. eauto.
Qed.

(** ** What a turn of a loop leaves alone *)

Ltac break_match :=
  match goal with
  | |- context [match ?x with _ => _ end] => destruct x eqn:?
  | H : context [match ?x with _ => _ end] |- _ => destruct x eqn:?
  end.

Lemma loop_never_undefined (S : Type) (body : S -> step S) u :
  (forall s, body s <> crash u) ->
  forall fuel s, loop body fuel s <> undefined u.
Proof.
  intros Hbody fuel; induction fuel as [|fuel IH]; intros s; simpl; [discriminate|].
  destruct (body s) eqn:Hs; try discriminate; auto.
  intros H; inversion H; subst. now apply (Hbody s).
Qed.

Module IRFacts.
Import InitialRegistration.

Lemma ir_unlocked_locals w l : snd (unlocked background w l) = l.
Proof.
  unfold unlocked, absorb, background. destruct (others w); [reflexivity|].
  destruct (c_background c); reflexivity.
Qed.

Lemma ir_drain_services base events : forall w l,
  registration_services (snd (fst (drain base events w l))) = registration_services l
  /\ client (snd (fst (drain base events w l))) = client l.
Proof.
  induction events as [|e rest IH]; intros w l; simpl; [auto|].
  destruct (shutdown w || registration_service_error l || node_registered l); [auto|].
  destruct (negb (is_node_creation e)); [apply IH|].
  destruct (request_registration base e w) as [w1 r].
  pose proof (ir_unlocked_locals w1 (set_self_id (fst (get_node_behaviour_event_id_type e)) l)) as Hu.
  destruct (unlocked background w1 _) as [w2 l2]. simpl in Hu. subst l2.
  destruct r; [auto|]. destruct (IH w2 (set_node_registered true
    (set_self_id (fst (get_node_behaviour_event_id_type e)) l))) as [H1 H2].
  rewrite H1, H2. auto.
Qed.

Lemma ir_wait_script_locals script : forall w l w' l',
  wait_script predicate background script w l = Some (w', l') -> l' = l.
Proof.
  induction script as [|c script IH]; intros w l w' l' H; simpl in H.
  - destruct (predicate w l); congruence.
  - destruct (predicate w l); [congruence|].
    unfold absorb, background in H. destruct (c_background c); eauto.
Qed.

Lemma ir_client_is_true base l : client_is base l = true -> client l = Some base.
Proof.
  unfold client_is. destruct (client l); [|discriminate].
  intros H. apply String.eqb_eq in H. now subst.
Qed.

(** After a completed turn the client in use is the front of the
    remaining list, which is not empty; a turn never dereferences the
    end of the list, and erases it only with the error flag up and
    the list empty. *)
Lemma ir_turn_cases w l :
  match turn w l with
  | next (w', l') =>
      registration_services l' = registration_services l
      /\ registration_services l' <> []
      /\ client l' = top_registration_service (registration_services l')
  | break (w', l') => w' = w /\ l' = l
  | blocked | crash _ => False
  end.
Proof.
  unfold turn.
  destruct (shutdown w || empty (registration_services l) || node_registered l) eqn:Hb;
    [auto|].
  destruct (registration_services l) as [|e m] eqn:Hs.
  - simpl in Hb. rewrite orb_true_r in Hb. discriminate.
  - cbn [top_registration_service].
    destruct (client_is (snd e) l) eqn:Hc.
    + unfold node_behaviour_grain_guard.
      pose proof (ir_drain_services (snd e) (grain_data w)
                    (set_grain [] (strictly_increasing_update w) w) l) as [H1 H2].
      destruct (drain _ _ _ _) as [[w3 l3] ev]. simpl in *.
      rewrite H1, H2, Hs. repeat split; try discriminate. now apply ir_client_is_true.
    + unfold node_behaviour_grain_guard.
      pose proof (ir_drain_services (snd e) (grain_data (add_log (client_created (snd e)) w))
                    (set_grain [] (strictly_increasing_update (add_log (client_created (snd e)) w))
                       (add_log (client_created (snd e)) w))
                    (set_client (Some (snd e)) l)) as [H1 H2].
      destruct (drain _ _ _ _) as [[w3 l3] ev]. simpl in *.
      rewrite H1, H2, Hs. repeat split; discriminate.
Qed.

Lemma ir_iteration_cases wl :
  match iteration wl with
  | next (w', l') =>
      registration_services l' <> []
      /\ client l' = top_registration_service (registration_services l')
  | break _ | blocked => True
  | crash u =>
      u = erase_end /\ registration_service_error (snd wl) = true
      /\ registration_services (snd wl) = []
  end.
Proof.
  unfold iteration. destruct (condition_wait predicate background (fst wl) (snd wl))
    as [[w l]|] eqn:Hwait; [|exact I].
  apply ir_wait_script_locals in Hwait. subst l.
  destruct (registration_service_error (snd wl)) eqn:He.
  - destruct (registration_services (snd wl)) as [|e m] eqn:Hs; simpl.
    + auto.
    + pose proof (ir_turn_cases w (set_registration_services m (snd wl))) as H.
      destruct (turn w _) as [[w2 l2]|[w2 l2]| |u]; try exact I; tauto.
  - pose proof (ir_turn_cases w (snd wl)) as H.
    destruct (turn w _) as [[w2 l2]|[w2 l2]| |u]; try exact I; tauto.
Qed.
End IRFacts.

Module ROFacts.
Import RegisteredOperation.

Lemma same_registry_refl l : same_registry l l.
Proof. split; reflexivity. Qed.

Lemma same_registry_trans l1 l2 l3 :
  same_registry l1 l2 -> same_registry l2 l3 -> same_registry l1 l3.
Proof. unfold same_registry. intros [] []. split; congruence. Qed.

Lemma ro_background_registry self b w l :
  same_registry l (snd (background self b w l)).
Proof.
  unfold background. destruct b, (background_heartbeats l), (client l);
    try apply same_registry_refl.
  destruct (update_node_health u self w) as [w' [e|[|]]]; split; reflexivity.
Qed.

Lemma ro_absorb_registry self c w l :
  same_registry l (snd (absorb (background self) c w l)).
Proof.
  unfold absorb. destruct (c_background c);
    [apply ro_background_registry | apply same_registry_refl].
Qed.

Lemma ro_unlocked_registry self w l :
  same_registry l (snd (unlocked (background self) w l)).
Proof.
  unfold unlocked. destruct (others w);
    [apply same_registry_refl | apply ro_absorb_registry].
Qed.

Lemma ro_wait_script_registry self script : forall w l w' l',
  wait_script predicate (background self) script w l = Some (w', l') ->
  same_registry l l'.
Proof.
  induction script as [|c script IH]; intros w l w' l' H; simpl in H.
  - destruct (predicate w l); inversion H; subst. apply same_registry_refl.
  - destruct (predicate w l); [inversion H; subst; apply same_registry_refl|].
    pose proof (ro_absorb_registry self c (set_others script w) l) as Ha.
    destruct (absorb _ c _ l) as [w1 l1]. simpl in Ha.
    eapply same_registry_trans; eauto.
Qed.

Lemma ro_cancel_registry self w l : same_registry l (snd (cancel self w l)).
Proof.
  unfold cancel. pose proof (ro_unlocked_registry self w l) as Hu.
  destruct (unlocked _ w l) as [w1 l1]. simpl in *.
  destruct Hu. split; assumption.
Qed.

Lemma ro_drain_registry self base events : forall w l,
  same_registry l (snd (fst (drain self base events w l))).
Proof.
  induction events as [|e rest IH]; intros w l; simpl; [apply same_registry_refl|].
  destruct (shutdown w || registration_service_error l || node_unregistered l);
    [apply same_registry_refl|].
  destruct (request_registration base e w) as [w1 r].
  pose proof (ro_unlocked_registry self w1 l) as Hu.
  destruct (unlocked _ w1 l) as [w2 l2]. simpl in Hu.
  destruct r as [x|[]].
  - simpl. destruct Hu. split; assumption.
  - eapply same_registry_trans; [|apply IH].
    destruct (_ && _); [|assumption]. destruct Hu. split; assumption.
Qed.

Lemma ro_client_is_true base l : client_is base l = true -> client l = Some base.
Proof.
  unfold client_is. destruct (client l); [|discriminate].
  intros H. apply String.eqb_eq in H. now subst.
Qed.

Lemma ro_select_registry self base w l :
  registration_services (snd (fst (select self base w l))) = registration_services l
  /\ client (snd (fst (select self base w l))) = Some base.
Proof.
  unfold select. destruct (client_is base l) eqn:Hc.
  - simpl. split; [reflexivity | now apply ro_client_is_true].
  - destruct (update_node_health base self _) as [w1 [x|[|]]]; simpl;
      destruct (shutdown w1 || _ || _); simpl; auto.
Qed.

Lemma ro_turn_cases self w l :
  match turn self w l with
  | next (w', l') =>
      registration_services l' = registration_services l
      /\ registration_services l' <> []
      /\ client l' = top_registration_service (registration_services l')
  | break (w', l') => w' = w /\ l' = l
  | blocked | crash _ => False
  end.
Proof.
  unfold turn.
  destruct (shutdown w || empty (registration_services l) || node_unregistered l) eqn:Hb;
    [auto|].
  destruct (registration_services l) as [|e m] eqn:Hs.
  - simpl in Hb. rewrite orb_true_r in Hb. discriminate.
  - cbn [top_registration_service].
    pose proof (ro_select_registry self (snd e) w l) as [H1 H2].
    destruct (select self (snd e) w l) as [[w1 l1] [|]]; simpl in H1, H2.
    + unfold node_behaviour_grain_guard.
      pose proof (ro_drain_registry self (snd e) (grain_data w1)
                    (set_grain [] (strictly_increasing_update w1) w1)
                    (set_most_recent_update
                       (grain_updated (set_grain [] (strictly_increasing_update w1) w1)) l1))
        as [H3 H4].
      destruct (drain _ _ _ _ _) as [[w3 l3] ev]. simpl in *.
      rewrite H3, H4, H1, H2, Hs. repeat split; discriminate.
    + rewrite H1, H2, Hs. repeat split; discriminate.
Qed.

(** After a completed turn the client in use is the front of the
    remaining list, which is not empty; a turn never dereferences the
    end of the list, and erases it only when the list is empty. *)
Lemma ro_iteration_cases self wl :
  match iteration self wl with
  | next (w', l') =>
      registration_services l' <> []
      /\ client l' = top_registration_service (registration_services l')
  | break _ | blocked => True
  | crash u => u = erase_end /\ registration_services (snd wl) = []
  end.
Proof.
  unfold iteration.
  destruct (condition_wait _ _ _ _) as [[w l]|] eqn:Hwait; [|exact I].
  apply ro_wait_script_registry in Hwait. destruct Hwait as [Hs _].
  destruct (registration_service_error l).
  - destruct (registration_services l) as [|e m] eqn:Hl; simpl.
    + split; congruence.
    + destruct (cancel self w _) as [w1 l1].
      pose proof (ro_turn_cases self w1 l1) as H.
      destruct (turn self w1 l1) as [[w2 l2]|[w2 l2]| |u]; try exact I; tauto.
  - pose proof (ro_turn_cases self w l) as H.
    destruct (turn self w l) as [[w2 l2]|[w2 l2]| |u]; try exact I; tauto.
Qed.
End ROFacts.

(** ** Neither loop erases from an empty list *)

Lemma loop_safe (S : Type) (body : S -> step S) (I : S -> Prop) :
  (forall s, I s -> match body s with
                    | next s' => I s'
                    | crash _ => False
                    | _ => True
                    end) ->
  forall fuel s u, I s -> loop body fuel s <> undefined u.
Proof.
  intros Hbody fuel. induction fuel as [|fuel IH]; intros s u Hs; cbn [loop];
    [discriminate|].
  specialize (Hbody s Hs). destruct (body s) as [s'|s'| |u']; try discriminate.
  - now apply IH.
  - contradiction.
Qed.

(** With the heartbeat task not running, waiting changes no local. *)
Lemma ro_wait_script_inactive self script : forall w l w' l',
  RegisteredOperation.background_heartbeats l = false ->
  wait_script RegisteredOperation.predicate (RegisteredOperation.background self)
    script w l = Some (w', l') ->
  l' = l.
Proof.
  induction script as [|c script IH]; intros w l w' l' Hb H; cbn [wait_script] in H.
  - destruct (RegisteredOperation.predicate w l); congruence.
  - destruct (RegisteredOperation.predicate w l); [congruence|].
    unfold absorb, RegisteredOperation.background in H. rewrite Hb in H.
    destruct (c_background c) as [[|]|]; eauto.
Qed.

(** From the locals either function starts with, no turn is undefined. *)
Lemma ir_iteration_safe wl :
  (InitialRegistration.registration_service_error (snd wl) = true ->
   InitialRegistration.registration_services (snd wl) <> []) ->
  match InitialRegistration.iteration wl with
  | next wl' =>
      InitialRegistration.registration_service_error (snd wl') = true ->
      InitialRegistration.registration_services (snd wl') <> []
  | crash _ => False
  | _ => True
  end.
Proof.
  intros HI. pose proof (IRFacts.ir_iteration_cases wl) as H.
  destruct (InitialRegistration.iteration wl) as [[w' l']|[w' l']| |u]; try exact I.
  - intros _. apply H.
  - destruct H as (_ & He & Hs). now apply HI.
Qed.

Lemma ro_iteration_safe self wl :
  (RegisteredOperation.registration_services (snd wl) <> []
   \/ RegisteredOperation.registration_service_error (snd wl) = false
      /\ RegisteredOperation.background_heartbeats (snd wl) = false) ->
  match RegisteredOperation.iteration self wl with
  | next wl' =>
      RegisteredOperation.registration_services (snd wl') <> []
      \/ RegisteredOperation.registration_service_error (snd wl') = false
         /\ RegisteredOperation.background_heartbeats (snd wl') = false
  | crash _ => False
  | _ => True
  end.
Proof.
  intros HI. pose proof (ROFacts.ro_iteration_cases self wl) as H.
  destruct (RegisteredOperation.iteration self wl) as [[w' l']|[w' l']| |u] eqn:Hit;
    try exact I.
  - left. apply H.
  - destruct H as (_ & Hs). destruct HI as [HI|[He Hb]]; [contradiction|].
    unfold RegisteredOperation.iteration, condition_wait in Hit.
    destruct (wait_script _ _ _ (fst wl) (snd wl)) as [[w1 l1]|] eqn:Hw; [|discriminate].
    apply (@ro_wait_script_inactive self _ _ _ _ _ Hb) in Hw. subst l1.
    rewrite He in Hit. pose proof (ROFacts.ro_turn_cases self w1 (snd wl)) as Ht.
    rewrite Hit in Ht. exact Ht.
Qed.

(** ** C8 and C10: selecting and popping the top registry *)

(** C8.  For every non-empty registry list (built by any sequence of
    insertions), the selected registry is an entry of minimum priority;
    among several of minimum priority it is the one inserted first; pop
    removes exactly that entry, leaving the list the other insertions
    build.  Hence after every completed turn of initial registration or
    registered operation the one client in use is that of the front,
    minimum-priority entry of the remaining list. *)
Theorem top_registration_service_is_minimum :
  (forall ins : list (service_priority * uri), ins <> [] ->
     exists i e,
       nth_error ins i = Some e
       /\ top_registration_service (of_insertions ins) = Some (snd e)
       /\ pop_registration_service (of_insertions ins) = Some (of_insertions (without i ins))
       /\ (forall j e', nth_error ins j = Some e' -> fst e <= fst e')
       /\ (forall j e', (j < i)%nat -> nth_error ins j = Some e' -> fst e < fst e'))
  /\ (forall wl w' l', InitialRegistration.iteration wl = next (w', l') ->
        InitialRegistration.registration_services l' <> []
        /\ InitialRegistration.client l'
           = top_registration_service (InitialRegistration.registration_services l'))
  /\ (forall self wl w' l', RegisteredOperation.iteration self wl = next (w', l') ->
        RegisteredOperation.registration_services l' <> []
        /\ RegisteredOperation.client l'
           = top_registration_service (RegisteredOperation.registration_services l')).
Proof.
  split; [|split].
  - intros ins Hne. destruct (of_insertions_front Hne) as (i & e & Hn & Hf & Hmin & Htie).
    exists i, e. rewrite Hf. simpl. auto.
  - intros wl w' l' H. pose proof (IRFacts.ir_iteration_cases wl) as Hc.
    rewrite H in Hc. exact Hc.
  - intros self wl w' l' H. pose proof (ROFacts.ro_iteration_cases self wl) as Hc.
    rewrite H in Hc. exact Hc.
Qed.

(** C8 at concrete inputs: three insertions, two of them of the least
    priority; and one turn of each loop over a pending 'added' event. *)
Lemma top_registration_service_is_minimum_witness :
  (exists i e,
     nth_error [(2, Example.registry_a); (1, Example.registry_b); (1, Example.registry_a)] i
     = Some e
     /\ top_registration_service
          (of_insertions [(2, Example.registry_a); (1, Example.registry_b);
                          (1, Example.registry_a)])
        = Some (snd e)
     /\ pop_registration_service
          (of_insertions [(2, Example.registry_a); (1, Example.registry_b);
                          (1, Example.registry_a)])
        = Some (of_insertions
                  (without i [(2, Example.registry_a); (1, Example.registry_b);
                              (1, Example.registry_a)]))
     /\ (forall j e',
           nth_error [(2, Example.registry_a); (1, Example.registry_b);
                      (1, Example.registry_a)] j = Some e' -> fst e <= fst e')
     /\ (forall j e', (j < i)%nat ->
           nth_error [(2, Example.registry_a); (1, Example.registry_b);
                      (1, Example.registry_a)] j = Some e' -> fst e < fst e'))
  /\ (exists w' l',
        InitialRegistration.iteration
          (push_event Example.quiet (Example.added "devices/d1"),
           Example.registering [(1, Example.registry_a)]) = next (w', l')
        /\ InitialRegistration.client l'
           = top_registration_service (InitialRegistration.registration_services l'))
  /\ (exists w' l',
        RegisteredOperation.iteration "n1"
          (set_net [response 200; response 201]
             (push_event Example.quiet (Example.added "devices/d1")),
           Example.registered [(1, Example.registry_a)]) = next (w', l')
        /\ RegisteredOperation.client l'
           = top_registration_service (RegisteredOperation.registration_services l')).
Proof.
  destruct top_registration_service_is_minimum as (H1 & H2 & H3).
  split; [apply H1; discriminate|]. split.
  - assert (Hrun : exists w' l',
              InitialRegistration.iteration
                (push_event Example.quiet (Example.added "devices/d1"),
                 Example.registering [(1, Example.registry_a)]) = next (w', l')).
    { eexists. eexists. vm_compute. reflexivity. }
    destruct Hrun as (w' & l' & Hrun). exists w', l'. split; [exact Hrun|].
    apply (H2 _ _ _ Hrun).
  - assert (Hrun : exists w' l',
              RegisteredOperation.iteration "n1"
                (set_net [response 200; response 201]
                   (push_event Example.quiet (Example.added "devices/d1")),
                 Example.registered [(1, Example.registry_a)]) = next (w', l')).
    { eexists. eexists. vm_compute. reflexivity. }
    destruct Hrun as (w' & l' & Hrun). exists w', l'. split; [exact Hrun|].
    apply (H3 _ _ _ _ Hrun).
Defined.

(** C10.  [top_registration_service] is defined exactly on non-empty
    lists, and both loops test for emptiness right before calling it:
    from any state whatever, no turn of initial registration or
    registered operation, and so no call of either function, reaches the
    dereference of the end of the list.  From the locals the functions
    start with, the erasure of [pop_registration_service] is never
    undefined either. *)
Theorem top_registration_service_precondition :
  (forall m, top_registration_service m = None <-> m = [])
  /\ (forall wl, InitialRegistration.iteration wl <> crash dereference_end)
  /\ (forall self wl, RegisteredOperation.iteration self wl <> crash dereference_end)
  /\ (forall fuel self services w,
        InitialRegistration.initial_registration fuel self services w <> undefined dereference_end)
  /\ (forall self fuel services w,
        RegisteredOperation.registered_operation self fuel services w <> undefined dereference_end)
  /\ (forall fuel self services w u,
        InitialRegistration.initial_registration fuel self services w <> undefined u)
  /\ (forall self fuel services w u,
        RegisteredOperation.registered_operation self fuel services w <> undefined u).
Proof.
  assert (Hir : forall wl, InitialRegistration.iteration wl <> crash dereference_end).
  { intros wl H. pose proof (IRFacts.ir_iteration_cases wl) as Hc.
    rewrite H in Hc. destruct Hc; discriminate. }
  assert (Hro : forall self wl, RegisteredOperation.iteration self wl <> crash dereference_end).
  { intros self wl H. pose proof (ROFacts.ro_iteration_cases self wl) as Hc.
    rewrite H in Hc. destruct Hc; discriminate. }
  split; [apply top_registration_service_none|].
  split; [exact Hir|]. split; [exact Hro|]. split; [|split; [|split]].
  - intros fuel self services w. unfold InitialRegistration.initial_registration.
    now apply loop_never_undefined.
  - intros self fuel services w. unfold RegisteredOperation.registered_operation.
    pose proof (@loop_never_undefined _ (RegisteredOperation.iteration self)
                  dereference_end (Hro self) fuel) as Hl.
    intros H. destruct (loop _ fuel _) as [[w' l']| | |u] eqn:Hrun; try discriminate.
    inversion H; subst. eapply Hl; eauto.
  - intros fuel self services w u. unfold InitialRegistration.initial_registration.
    apply (@loop_safe _ InitialRegistration.iteration
             (fun wl => InitialRegistration.registration_service_error (snd wl) = true ->
                        InitialRegistration.registration_services (snd wl) <> [])).
    + intros wl. apply ir_iteration_safe.
    + cbn. discriminate.
  - intros self fuel services w u. unfold RegisteredOperation.registered_operation.
    pose proof (@loop_safe _ (RegisteredOperation.iteration self)
                  (fun wl => RegisteredOperation.registration_services (snd wl) <> []
                             \/ RegisteredOperation.registration_service_error (snd wl) = false
                                /\ RegisteredOperation.background_heartbeats (snd wl) = false)
                  (ro_iteration_safe self) fuel) as Hl.
    intros H. destruct (loop _ fuel _) as [[w' l']| | |u'] eqn:Hrun; try discriminate.
    inversion H; subst. eapply Hl; [|exact Hrun]. right. split; reflexivity.
Qed.

(** ** The transports leave the store alone *)

Lemma same_store_refl w : same_store w w.
Proof. repeat split. Qed.

Lemma same_store_trans w1 w2 w3 :
  same_store w1 w2 -> same_store w2 w3 -> same_store w1 w3.
Proof.
  unfold same_store. intros (?&?&?&?&?&?) (?&?&?&?&?&?). repeat split; congruence.
Qed.

Lemma transport_only_ret A (a : A) : transport_only (ret a).
Proof. intros w. apply same_store_refl. Qed.

Lemma transport_only_throw A e : transport_only (@throw A e).
Proof. intros w. apply same_store_refl. Qed.

Lemma transport_only_say a : transport_only (say a).
Proof. intros w. repeat split. Qed.

Lemma transport_only_bind A B (t : task A) (k : A -> task B) :
  transport_only t -> (forall a, transport_only (k a)) -> transport_only (bind t k).
Proof.
  intros Ht Hk w. unfold bind. specialize (Ht w).
  destruct (t w) as [w1 [e|a]]; simpl in *; [assumption|].
  eapply same_store_trans; [eassumption | apply Hk].
Qed.

Lemma transport_only_client_request base r : transport_only (client_request base r).
Proof.
  intros w. unfold client_request. destruct (net w) as [|[c|] n]; repeat split.
Qed.

Lemma transport_only_handle status operation :
  transport_only (handle_registration_error_conditions status operation).
Proof.
  unfold handle_registration_error_conditions.
  destruct (is_server_error_status_code status).
  - apply transport_only_bind; [apply transport_only_say|].
    intros _. apply transport_only_throw.
  - destruct (is_client_error_status_code status); apply transport_only_say.
Qed.

Create HintDb transport.

#[local] Hint Resolve transport_only_ret transport_only_throw transport_only_say
  transport_only_client_request transport_only_handle : transport.

Ltac transport :=
  repeat first
    [ apply transport_only_bind; [|intros ?]
    | match goal with |- transport_only (if ?b then _ else _) => destruct b end
    | solve [auto with transport] ].

Lemma transport_only_request_registration base e :
  transport_only (request_registration base e).
Proof. unfold request_registration. transport. Qed.



(** ** The other threads only append to the grain *)

Lemma push_events_grain events : forall w,
  grain_data (fold_left push_event events w) = grain_data w ++ events
  /\ others (fold_left push_event events w) = others w
  /\ (grain_updated w <= grain_updated (fold_left push_event events w))%N.
Proof.
  induction events as [|e events IH]; intros w; simpl.
  - rewrite app_nil_r. repeat split; lia.
  - destruct (IH (push_event w e)) as (H1 & H2 & H3).
    rewrite H1, H2. simpl in *. rewrite <- app_assoc. simpl.
    unfold strictly_increasing_update in *. simpl in *. repeat split; lia.
Qed.

Lemma apply_change_grain c w :
  grain_data (apply_change c w) = grain_data w ++ c_events c
  /\ others (apply_change c w) = others w
  /\ (grain_updated w <= grain_updated (apply_change c w))%N.
Proof.
  unfold apply_change. simpl.
  destruct (push_events_grain (c_events c) w) as (H1 & H2 & H3). auto.
Qed.

(** One unlocked period, whatever background task runs with it: the
    grain gains the events of the changes used, in order, and its
    watermark does not go back. *)
Lemma unlocked_grain L (h : background_event -> world -> L -> world * L) :
  (forall b w l, same_store w (fst (h b w l))) ->
  forall w l,
    exists used,
      others w = used ++ others (fst (unlocked h w l))
      /\ grain_data (fst (unlocked h w l)) = grain_data w ++ arrivals used
      /\ (grain_updated w <= grain_updated (fst (unlocked h w l)))%N.
Proof.
  intros Hh w l. unfold unlocked. destruct (others w) as [|c script] eqn:Ho.
  - exists []. simpl. rewrite Ho, app_nil_r. repeat split. lia.
  - exists [c]. unfold absorb.
    destruct (apply_change_grain c (set_others script w)) as (H1 & H2 & H3).
    change (grain_data (set_others script w)) with (grain_data w) in H1.
    change (others (set_others script w)) with script in H2.
    change (grain_updated (set_others script w)) with (grain_updated w) in H3.
    unfold arrivals. cbn [flat_map app]. rewrite app_nil_r.
    destruct (c_background c) as [b|]; cbn [fst].
    + destruct (Hh b (apply_change c (set_others script w)) l) as (_ & G1 & G2 & _ & _ & G3).
      rewrite G1, G2, G3, H1, H2. auto.
    + rewrite H1, H2. auto.
Qed.

(** ** C1: the drain protocol *)

Lemma ir_background_store b w l :
  same_store w (fst (InitialRegistration.background b w l)).
Proof. apply same_store_refl. Qed.











(** ** C2: a 200 in response to a creation *)

Lemma requests_sent_app l1 l2 :
  requests_sent (l1 ++ l2) = requests_sent l1 ++ requests_sent l2.
Proof.
  induction l1 as [|a l1 IH]; simpl; [reflexivity|].
  destruct a; simpl; now rewrite ?IH.
Qed.

(** The creation branch of [request_registration], by the replies. *)
Lemma request_registration_creation base e w :
  is_creation e = true ->
  request_registration base e w =
  bind (client_request base (post_of e))
    (fun status =>
       bind (if status =? status_codes.Created then ret status
             else if status =? status_codes.OK then
               bind (client_request base (delete_of e))
                 (fun deleted =>
                    bind (if deleted =? status_codes.NoContent then ret tt
                          else handle_registration_error_conditions deleted "deletion")
                      (fun _ => client_request base (post_of e)))
             else ret status)
         (fun status =>
            if status =? status_codes.Created then ret tt
            else handle_registration_error_conditions status "creation")) w.
Proof.
  unfold is_creation, request_registration. intros ->. reflexivity.
Qed.

Lemma server_error_not_no_content d :
  is_server_error_status_code d = true -> (d =? status_codes.NoContent) = false.
Proof.
  unfold is_server_error_status_code, status_codes.NoContent. intros H.
  apply andb_true_iff in H. destruct H as [H _]. apply Z.leb_le in H.
  apply Z.eqb_neq. lia.
Qed.

Lemma server_error_not_created d :
  is_server_error_status_code d = true -> (d =? status_codes.Created) = false.
Proof.
  unfold is_server_error_status_code, status_codes.Created. intros H.
  apply andb_true_iff in H. destruct H as [H _]. apply Z.leb_le in H.
  apply Z.eqb_neq. lia.
Qed.





(** ** C4: what a server-side error does to the registry list *)

(** The error flag is raised in the catch blocks and by the background
    task, and nothing lowers it. *)
Lemma ro_background_error self b w l :
  RegisteredOperation.registration_service_error l = true ->
  RegisteredOperation.registration_service_error
    (snd (RegisteredOperation.background self b w l)) = true.
Proof.
  intros H. unfold RegisteredOperation.background.
  destruct b, (RegisteredOperation.background_heartbeats l), (RegisteredOperation.client l);
    try exact H.
  destruct (update_node_health u self w) as [w' [e|[|]]]; cbn; auto.
Qed.

Lemma ro_absorb_error self c w l :
  RegisteredOperation.registration_service_error l = true ->
  RegisteredOperation.registration_service_error
    (snd (absorb (RegisteredOperation.background self) c w l)) = true.
Proof.
  intros H. unfold absorb. destruct (c_background c); [|exact H].
  now apply ro_background_error.
Qed.

Lemma ro_unlocked_error self w l :
  RegisteredOperation.registration_service_error l = true ->
  RegisteredOperation.registration_service_error
    (snd (unlocked (RegisteredOperation.background self) w l)) = true.
Proof.
  intros H. unfold unlocked. destruct (others w); [exact H|]. now apply ro_absorb_error.
Qed.

Lemma ro_wait_script_error self script : forall w l w' l',
  wait_script RegisteredOperation.predicate (RegisteredOperation.background self)
    script w l = Some (w', l') ->
  RegisteredOperation.registration_service_error l = true ->
  RegisteredOperation.registration_service_error l' = true.
Proof.
  induction script as [|c script IH]; intros w l w' l' H He; cbn [wait_script] in H.
  - destruct (RegisteredOperation.predicate w l); inversion H; subst. exact He.
  - destruct (RegisteredOperation.predicate w l); [inversion H; subst; exact He|].
    pose proof (@ro_absorb_error self c (set_others script w) l He) as Ha.
    destruct (absorb _ c _ l) as [w1 l1]. cbn [snd] in Ha. eapply IH; eauto.
Qed.

Lemma ro_drain_error self base events : forall w l,
  RegisteredOperation.registration_service_error l = true ->
  RegisteredOperation.drain self base events w l = (w, l, events).
Proof.
  intros w l H. destruct events; cbn [RegisteredOperation.drain]; [reflexivity|].
  rewrite H, orb_true_r. reflexivity.
Qed.

Lemma ro_select_error self base w l :
  RegisteredOperation.registration_service_error l = true ->
  RegisteredOperation.registration_service_error
    (snd (fst (RegisteredOperation.select self base w l))) = true.
Proof.
  intros H. unfold RegisteredOperation.select.
  destruct (RegisteredOperation.client_is base l); [exact H|].
  destruct (update_node_health base self _) as [w1 [x|[|]]]; cbn;
    rewrite ?H, ?orb_true_r; cbn; auto.
Qed.

(** Once [registration_service_error] is up, every completed turn of
    registered operation pops one more registry and leaves the flag up,
    whatever the new registry answers. *)
Lemma ro_error_is_never_lowered self wl w' l' :
  RegisteredOperation.registration_service_error (snd wl) = true ->
  RegisteredOperation.iteration self wl = next (w', l') ->
  RegisteredOperation.registration_service_error l' = true
  /\ List.length (RegisteredOperation.registration_services (snd wl))
     = S (List.length (RegisteredOperation.registration_services l')).
Proof.
  intros He H. unfold RegisteredOperation.iteration, condition_wait in H.
  destruct (wait_script _ _ _ (fst wl) (snd wl)) as [[w1 l1]|] eqn:Hw; [|discriminate].
  pose proof (@ro_wait_script_error _ _ _ _ _ _ Hw He) as He1.
  destruct (@ROFacts.ro_wait_script_registry _ _ _ _ _ _ Hw) as [Hs1 _].
  rewrite He1 in H.
  destruct (RegisteredOperation.registration_services l1) as [|e m] eqn:Hl1;
    [discriminate|]. cbn [pop_registration_service] in H.
  pose proof (@ro_unlocked_error self w1
                (RegisteredOperation.set_registration_services m l1) He1) as Hc.
  destruct (ROFacts.ro_cancel_registry self w1
              (RegisteredOperation.set_registration_services m l1)) as [Hs2 _].
  unfold RegisteredOperation.cancel in *.
  destruct (unlocked _ w1 _) as [w2 l2]. cbn [fst snd] in *.
  set (l3 := RegisteredOperation.set_background_heartbeats false l2) in *.
  assert (He3 : RegisteredOperation.registration_service_error l3 = true) by exact Hc.
  pose proof (ROFacts.ro_turn_cases self (add_log background_cancelled w2) l3) as Ht.
  rewrite <- Hs1. cbn [List.length].
  unfold RegisteredOperation.turn in *.
  destruct (shutdown _ || _ || _); [discriminate|].
  destruct (top_registration_service _) as [base|]; [|discriminate].
  pose proof (@ro_select_error self base (add_log background_cancelled w2) l3 He3) as Hsel.
  destruct (RegisteredOperation.select self base _ l3) as [[w4 l4] [|]]; cbn [fst snd] in *.
  - cbn [node_behaviour_grain_guard] in *.
    rewrite ro_drain_error in H, Ht by exact Hsel.
    inversion H; subst. destruct Ht as (Hs & _). subst l3. cbn in Hs, Hs2 |- *.
    split; [exact Hsel|]. now rewrite Hs, Hs2.
  - inversion H; subst. destruct Ht as (Hs & _). subst l3. cbn in Hs, Hs2 |- *.
    split; [exact Hsel|]. now rewrite Hs, Hs2.
Qed.

(** C4 at a concrete run.  Two registries, a (priority 1) and b
    (priority 2); the node is registered and one 'added' event is
    pending.  Registry a answers the first heartbeat 200 and the POST
    503; registry b then answers its first heartbeat 200.  The flag
    [registration_service_error] is never lowered, so the loop pops a,
    probes b, and pops b as well without sending it the event: the
    function returns with the list empty and the event back in the
    grain. *)
Theorem registry_error_pops_every_registry :
  let e := Example.added "devices/d1" in
  let w := set_net [response 200; response 503; response 200]
             (push_event Example.quiet e) in
  exists w' l',
    RegisteredOperation.registered_operation "n1" 4
      (of_insertions [(1, Example.registry_a); (2, Example.registry_b)]) w
    = returned (w', l')
    /\ requests_sent (log w')
       = [(Example.registry_a, health_of "n1", response 200);
          (Example.registry_a, post_of e, response 503);
          (Example.registry_b, health_of "n1", response 200)]
    /\ RegisteredOperation.registration_services l' = []
    /\ grain_data w' = [e].
Proof. vm_compute. eexists. eexists. repeat split. Qed.

(** ** The log only grows *)

Lemma log_grows_refl w : log_grows w w.
Proof. exists []. now rewrite app_nil_r. Qed.

Lemma log_grows_trans w1 w2 w3 : log_grows w1 w2 -> log_grows w2 w3 -> log_grows w1 w3.
Proof. intros [m1 H1] [m2 H2]. exists (m1 ++ m2). now rewrite H2, H1, app_assoc. Qed.

Lemma log_grows_same w w' : log w' = log w -> log_grows w w'.
Proof. intros H. exists []. now rewrite app_nil_r. Qed.

Lemma log_grows_add a w : log_grows w (add_log a w).
Proof. exists [a]. reflexivity. Qed.

Lemma task_log_grows_ret A (a : A) : task_log_grows (ret a).
Proof. intros w. apply log_grows_refl. Qed.

Lemma task_log_grows_throw A e : task_log_grows (@throw A e).
Proof. intros w. apply log_grows_refl. Qed.

Lemma task_log_grows_say a : task_log_grows (say a).
Proof. intros w. apply log_grows_add. Qed.

Lemma task_log_grows_bind A B (t : task A) (k : A -> task B) :
  task_log_grows t -> (forall a, task_log_grows (k a)) -> task_log_grows (bind t k).
Proof.
  intros Ht Hk w. unfold bind. specialize (Ht w).
  destruct (t w) as [w1 [e|a]]; simpl in *; [assumption|].
  eapply log_grows_trans; [eassumption | apply Hk].
Qed.

Lemma task_log_grows_client_request base r : task_log_grows (client_request base r).
Proof.
  intros w. unfold client_request.
  destruct (net w) as [|[c|] n]; eexists; reflexivity.
Qed.

Lemma task_log_grows_handle status operation :
  task_log_grows (handle_registration_error_conditions status operation).
Proof.
  unfold handle_registration_error_conditions.
  destruct (is_server_error_status_code status).
  - apply task_log_grows_bind; [apply task_log_grows_say|].
    intros _. apply task_log_grows_throw.
  - destruct (is_client_error_status_code status); apply task_log_grows_say.
Qed.

Create HintDb log_grows.

#[local] Hint Resolve task_log_grows_ret task_log_grows_throw task_log_grows_say
  task_log_grows_client_request task_log_grows_handle : log_grows.

Ltac log_grows :=
  repeat first
    [ apply task_log_grows_bind; [|intros ?]
    | match goal with |- task_log_grows (if ?b then _ else _) => destruct b end
    | solve [auto with log_grows] ].

Lemma task_log_grows_request_registration base e :
  task_log_grows (request_registration base e).
Proof. unfold request_registration. log_grows. Qed.

Lemma task_log_grows_update_node_health base self :
  task_log_grows (update_node_health base self).
Proof. unfold update_node_health. log_grows. Qed.

Lemma push_events_log events : forall w, log (fold_left push_event events w) = log w.
Proof. induction events as [|e events IH]; intros w; simpl; [reflexivity|]. now rewrite IH. Qed.

Lemma apply_change_log c w : log (apply_change c w) = log w.
Proof. unfold apply_change. simpl. apply push_events_log. Qed.

Lemma unlocked_log_grows L (h : background_event -> world -> L -> world * L) :
  (forall b w l, log_grows w (fst (h b w l))) ->
  forall w l, log_grows w (fst (unlocked h w l)).
Proof.
  intros Hh w l. unfold unlocked. destruct (others w) as [|c script];
    [apply log_grows_refl|].
  unfold absorb. destruct (c_background c) as [b|]; simpl.
  - eapply log_grows_trans; [|apply Hh]. apply log_grows_same.
    now rewrite apply_change_log.
  - apply log_grows_same. now rewrite apply_change_log.
Qed.

Lemma ro_background_log self b w l :
  log_grows w (fst (RegisteredOperation.background self b w l)).
Proof.
  unfold RegisteredOperation.background.
  destruct b, (RegisteredOperation.background_heartbeats l), (RegisteredOperation.client l);
    try apply log_grows_refl.
  pose proof (task_log_grows_update_node_health u self w) as H.
  destruct (update_node_health u self w) as [w' [e|[|]]]; exact H.
Qed.

Lemma ro_drain_log self base events : forall w l,
  log_grows w (fst (fst (RegisteredOperation.drain self base events w l))).
Proof.
  induction events as [|e rest IH]; intros w l; cbn [RegisteredOperation.drain].
  - apply log_grows_refl.
  - destruct (shutdown w || _ || _); [apply log_grows_refl|].
    pose proof (task_log_grows_request_registration base e w) as Hreq.
    destruct (request_registration base e w) as [w1 r]. cbn [fst] in Hreq.
    pose proof (@unlocked_log_grows _ _ (ro_background_log self) w1 l) as Hu.
    destruct (unlocked (RegisteredOperation.background self) w1 l) as [w2 l2].
    cbn [fst] in *.
    destruct r as [x|[]].
    + eapply log_grows_trans; eauto.
    + eapply log_grows_trans; [|apply IH]. eapply log_grows_trans; eauto.
Qed.

(** ** C7: the first interaction with a new registry *)

Lemma not_found_not_server_error c :
  (c =? status_codes.NotFound) = true -> is_server_error_status_code c = false.
Proof. intros H. apply Z.eqb_eq in H. subst. reflexivity. Qed.

Lemma ok_not_server_error c :
  (c =? status_codes.OK) = true ->
  is_server_error_status_code c = false /\ (c =? status_codes.NotFound) = false.
Proof. intros H. apply Z.eqb_eq in H. subst. split; reflexivity. Qed.

Ltac select_done errs :=
  exists errs; simpl; repeat split; simpl; rewrite <- ?app_assoc;
  try reflexivity; try tauto; try (intros ? [<-|[]]; eauto).

(** The block that adopts a new registry, by cases on the reply to the
    first heartbeat. *)
Lemma ro_select_new self base w l :
  RegisteredOperation.client_is base l = false ->
  exists errs,
    log (fst (fst (RegisteredOperation.select self base w l)))
    = log w ++ client_created base
            :: sent base (health_of self) (next_reply (net w))
            :: errs ++ (if snd (RegisteredOperation.select self base w l)
                        then [heartbeats_started base] else [])
    /\ (forall a, In a errs -> exists operation status, a = error_logged operation status)
    /\ snd (RegisteredOperation.select self base w l)
       = heartbeat_accepted (next_reply (net w)) && negb (shutdown w)
         && negb (RegisteredOperation.registration_service_error l)
         && negb (RegisteredOperation.node_unregistered l)
    /\ same_store w (fst (fst (RegisteredOperation.select self base w l)))
    /\ RegisteredOperation.client (snd (fst (RegisteredOperation.select self base w l)))
       = Some base.
Proof.
  intros Hc. unfold RegisteredOperation.select. rewrite Hc.
  destruct w as [sh gd gu ru st nt ot md lg].
  destruct l as [services cl bg err unreg mru].
  unfold update_node_health, bind, client_request, handle_registration_error_conditions,
    ret, throw, say, bind, health_of.
  cbn [net set_net add_log log shutdown].
  destruct nt as [|[c|] nt]; cbn [next_reply heartbeat_accepted].
  - destruct sh; select_done (@nil action).
  - destruct (c =? status_codes.OK) eqn:Hok.
    + destruct (ok_not_server_error c Hok) as [-> ->].
      destruct sh, err, unreg; select_done (@nil action).
    + destruct (c =? status_codes.NotFound) eqn:Hnf.
      * rewrite (not_found_not_server_error c Hnf).
        destruct sh, err; select_done [error_logged "heartbeat" c].
      * destruct (is_server_error_status_code c) eqn:Hs.
        -- destruct sh; select_done [error_logged "heartbeat" c].
        -- destruct (is_client_error_status_code c), sh, err, unreg;
             select_done [error_logged "heartbeat" c].
  - destruct sh; select_done (@nil action).
Qed.

Lemma guard_destroy_log events w : log (node_behaviour_grain_guard_destroy events w) = log w.
Proof. destruct events; reflexivity. Qed.

(** C7, as the code has it.  When registered operation adopts a new
    registry (a client for a base URI other than the current client's)
    its first action on it is one heartbeat, POST /health/nodes/<self_id>,
    made before any event is taken from the grain; nothing else is sent
    meanwhile.  The background heartbeats are started exactly when that
    heartbeat is answered with a status that is neither 404 nor 5xx (200
    or any other) and neither shutdown nor an error flag is up.  In the
    turn of the loop that adopts the registry, every request comes after
    that heartbeat. *)
Theorem first_interaction_is_heartbeat self base w l :
  RegisteredOperation.client_is base l = false ->
  top_registration_service (RegisteredOperation.registration_services l) = Some base ->
  (exists errs,
     log (fst (fst (RegisteredOperation.select self base w l)))
     = log w ++ client_created base
             :: sent base (health_of self) (next_reply (net w))
             :: errs ++ (if snd (RegisteredOperation.select self base w l)
                         then [heartbeats_started base] else [])
     /\ (forall a, In a errs -> exists operation status, a = error_logged operation status)
     /\ snd (RegisteredOperation.select self base w l)
        = heartbeat_accepted (next_reply (net w)) && negb (shutdown w)
          && negb (RegisteredOperation.registration_service_error l)
          && negb (RegisteredOperation.node_unregistered l)
     /\ grain_data (fst (fst (RegisteredOperation.select self base w l))) = grain_data w)
  /\ (forall w' l', RegisteredOperation.turn self w l = next (w', l') ->
        exists rest,
          requests_sent (log w')
          = requests_sent (log w) ++ (base, health_of self, next_reply (net w)) :: rest).
Proof.
  intros Hc Htop. destruct (@ro_select_new self base w l Hc) as (errs & Hlog & Herrs & Hgo & Hs & _).
  split.
  - exists errs. repeat split; auto. apply Hs.
  - intros w' l' Hturn. unfold RegisteredOperation.turn in Hturn.
    destruct (shutdown w || _ || _); [discriminate|]. rewrite Htop in Hturn.
    destruct (RegisteredOperation.select self base w l) as [[w1 l1] go]. cbn [fst snd] in *.
    assert (Hgrow : log_grows w1 w').
    { destruct go.
      - cbn [node_behaviour_grain_guard] in Hturn.
        pose proof (ro_drain_log self base (grain_data w1)
                      (set_grain [] (strictly_increasing_update w1) w1)
                      (RegisteredOperation.set_most_recent_update
                         (grain_updated (set_grain [] (strictly_increasing_update w1) w1)) l1))
          as Hd.
        destruct (RegisteredOperation.drain _ _ _ _ _) as [[w2 l2] ev].
        inversion Hturn; subst. cbn [fst] in Hd.
        destruct Hd as [m Hd]. exists m. now rewrite guard_destroy_log.
      - inversion Hturn; subst. apply log_grows_refl. }
    destruct Hgrow as [m Hm]. rewrite Hm, Hlog, !requests_sent_app. cbn [requests_sent].
    rewrite <- app_assoc. cbn [app]. eexists. reflexivity.
Qed.

(** C7 at a concrete input: a registry that answers the first heartbeat
    200, with one event pending in the grain. *)
Lemma first_interaction_is_heartbeat_witness :
  let self := "n1" in
  let base := Example.registry_a in
  let w := set_net [response 200; response 201]
             (push_event Example.quiet (Example.added "devices/d1")) in
  let l := Example.registered [(1, Example.registry_a)] in
  (exists errs,
     log (fst (fst (RegisteredOperation.select self base w l)))
     = log w ++ client_created base
             :: sent base (health_of self) (next_reply (net w))
             :: errs ++ (if snd (RegisteredOperation.select self base w l)
                         then [heartbeats_started base] else [])
     /\ (forall a, In a errs -> exists operation status, a = error_logged operation status)
     /\ snd (RegisteredOperation.select self base w l)
        = heartbeat_accepted (next_reply (net w)) && negb (shutdown w)
          && negb (RegisteredOperation.registration_service_error l)
          && negb (RegisteredOperation.node_unregistered l)
     /\ grain_data (fst (fst (RegisteredOperation.select self base w l))) = grain_data w)
  /\ (forall w' l', RegisteredOperation.turn self w l = next (w', l') ->
        exists rest,
          requests_sent (log w')
          = requests_sent (log w) ++ (base, health_of self, next_reply (net w)) :: rest).
Proof.
  exact (@first_interaction_is_heartbeat "n1" Example.registry_a
           (set_net [response 200; response 201]
              (push_event Example.quiet (Example.added "devices/d1")))
           (Example.registered [(1, Example.registry_a)]) eq_refl eq_refl).
Defined.

(** C7 as stated fails when the first heartbeat is answered 400: the
    status is not 200, yet the background heartbeats are started. *)
Lemma heartbeats_start_after_a_400 :
  let w := set_net [response 400] Example.quiet in
  let l := Example.registered [(1, Example.registry_a)] in
  RegisteredOperation.client_is Example.registry_a l = false
  /\ next_reply (net w) = response 400
  /\ log (fst (fst (RegisteredOperation.select "n1" Example.registry_a w l)))
     = [client_created Example.registry_a;
        sent Example.registry_a (health_of "n1") (response 400);
        error_logged "heartbeat" 400;
        heartbeats_started Example.registry_a]
  /\ RegisteredOperation.background_heartbeats
       (snd (fst (RegisteredOperation.select "n1" Example.registry_a w l))) = true.
Proof. vm_compute. repeat split. Qed.

(** ** C6: unregistering the node *)



(** With [node_unregistered] up and no error flagged, the next turn
    leaves the loop at once, touching nothing. *)
Lemma ro_iteration_unregistered self w l :
  RegisteredOperation.node_unregistered l = true ->
  RegisteredOperation.registration_service_error l = false ->
  RegisteredOperation.iteration self (w, l) = break (w, l).
Proof.
  intros Hu He. unfold RegisteredOperation.iteration, condition_wait. cbn [fst snd].
  assert (Hp : RegisteredOperation.predicate w l = true).
  { unfold RegisteredOperation.predicate. rewrite Hu, orb_true_r. reflexivity. }
  destruct (others w); cbn [wait_script]; rewrite Hp, He;
    unfold RegisteredOperation.turn; rewrite Hu, orb_true_r; reflexivity.
Qed.





(** ** C9: the node's own id *)

(** With no flag up, the drain of initial registration discards events
    that are not the node's 'added' or 'sync'. *)
Lemma ir_drain_skips base prefix tail w l :
  shutdown w = false ->
  InitialRegistration.registration_service_error l = false ->
  InitialRegistration.node_registered l = false ->
  Forall (fun x => InitialRegistration.is_node_creation x = false) prefix ->
  InitialRegistration.drain base (prefix ++ tail) w l
  = InitialRegistration.drain base tail w l.
Proof.
  intros Hsh He Hr Hp. induction Hp as [|x prefix Hx Hp IH]; [reflexivity|].
  cbn [app InitialRegistration.drain]. rewrite Hsh, He, Hr, Hx. cbn [orb negb]. exact IH.
Qed.

(** With [node_registered] up the drain stops where it is. *)
Lemma ir_drain_registered base events w l :
  InitialRegistration.node_registered l = true ->
  InitialRegistration.drain base events w l = (w, l, events).
Proof.
  intros H. destruct events; cbn [InitialRegistration.drain]; [reflexivity|].
  rewrite H, orb_true_r. reflexivity.
Qed.

(** The first request for a creation is the POST of the event. *)
Lemma request_registration_creation_first base e w :
  is_creation e = true ->
  exists m,
    log (fst (request_registration base e w))
    = log w ++ sent base (post_of e) (next_reply (net w)) :: m.
Proof.
  intros Hc. rewrite (@request_registration_creation base e w Hc).
  match goal with |- context [bind _ ?k] => set (K := k) end.
  unfold bind at 1. unfold client_request at 1.
  destruct (net w) as [|[c|] n]; cbn [next_reply].
  - exists []. reflexivity.
  - assert (Hk : task_log_grows (K c)).
    { unfold K. log_grows. }
    destruct (Hk (add_log (sent base (post_of e) (response c)) (set_net n w))) as [m Hm].
    exists m. rewrite Hm. cbn [log add_log set_net]. now rewrite <- app_assoc.
  - exists []. reflexivity.
Qed.

Lemma ir_background_log b w l :
  log_grows w (fst (InitialRegistration.background b w l)).
Proof. apply log_grows_refl. Qed.

(** Outside initial registration a turn of the thread leaves [self_id]
    as it is. *)
Lemma self_id_kept_outside_initial_registration s fuel t w t' w' :
  mode t <> initial_registration ->
  node_behaviour_case s fuel t w = returned (t', w') ->
  self_id t' = self_id t.
Proof.
  intros Hm H. unfold node_behaviour_case in H.
  destruct (mode t); try congruence;
    repeat match type of H with
           | context [match ?x with _ => _ end] => destruct x
           | context [if ?x then _ else _] => destruct x
           end;
    try discriminate; inversion H; reflexivity.
Qed.

(** C9, as the code has it.  With no flag up, the drain of initial
    registration discards every event up to the first 'added' or 'sync'
    event of type node; on that event it sets [self_id] to the event's id
    and issues its POST, before any other request; the event is consumed
    and [node_registered] raised, or, on a server-side error, retained
    with [registration_service_error] raised.  Events none of which is
    such an event are all discarded with [self_id] untouched.  Every
    other mode of the thread leaves [self_id] as it is (registered
    operation only reads it); it is written again only by a later
    initial registration. *)
Theorem self_id_is_latched_by_initial_registration base prefix e rest w l :
  shutdown w = false ->
  InitialRegistration.registration_service_error l = false ->
  InitialRegistration.node_registered l = false ->
  Forall (fun x => InitialRegistration.is_node_creation x = false) prefix ->
  InitialRegistration.is_node_creation e = true ->
  (let '(w', l', remaining) := InitialRegistration.drain base (prefix ++ e :: rest) w l in
   InitialRegistration.self_id l' = fst (get_node_behaviour_event_id_type e)
   /\ (exists m, log w' = log w ++ sent base (post_of e) (next_reply (net w)) :: m)
   /\ (remaining = rest /\ InitialRegistration.node_registered l' = true
       \/ remaining = e :: rest /\ InitialRegistration.registration_service_error l' = true))
  /\ InitialRegistration.drain base prefix w l = (w, l, [])
  /\ (forall s fuel t w0 t' w0',
        mode t <> initial_registration ->
        node_behaviour_case s fuel t w0 = returned (t', w0') ->
        self_id t' = self_id t).
Proof.
  intros Hsh He Hr Hp Hc. split; [|split].
  - rewrite ir_drain_skips by assumption. cbn [InitialRegistration.drain].
    rewrite Hsh, He, Hr, Hc. cbn [orb negb].
    assert (Hcr : is_creation e = true).
    { unfold InitialRegistration.is_node_creation in Hc. apply andb_true_iff in Hc. apply Hc. }
    destruct (@request_registration_creation_first base e w Hcr) as [m Hm].
    destruct (request_registration base e w) as [w1 r]. cbn [fst] in Hm.
    set (l1 := InitialRegistration.set_self_id _ l).
    pose proof (IRFacts.ir_unlocked_locals w1 l1) as Hl.
    pose proof (@unlocked_log_grows _ _ ir_background_log w1 l1) as [m' Hm'].
    destruct (unlocked InitialRegistration.background w1 l1) as [w2 l2].
    cbn [fst snd] in *. subst l2.
    destruct r as [x|[]].
    + repeat split; [|right; split; reflexivity].
      exists (m ++ m'). rewrite Hm', Hm, <- app_assoc. reflexivity.
    + rewrite ir_drain_registered by reflexivity.
      repeat split; [|left; split; reflexivity].
      exists (m ++ m'). rewrite Hm', Hm, <- app_assoc. reflexivity.
  - rewrite <- (app_nil_r prefix). rewrite ir_drain_skips by assumption. reflexivity.
  - intros s fuel t w0 t' w0'. apply self_id_kept_outside_initial_registration.
Qed.

(** C9 at a concrete input: a device event, then the node's 'added'
    event answered 201, then another device event. *)
Lemma self_id_is_latched_by_initial_registration_witness :
  let base := Example.registry_a in
  let prefix := [Example.added "devices/d0"] in
  let e := Example.added "nodes/n1" in
  let rest := [Example.added "devices/d1"] in
  let w := set_net [response 201] Example.quiet in
  let l := Example.registering [(1, Example.registry_a)] in
  (let '(w', l', remaining) := InitialRegistration.drain base (prefix ++ e :: rest) w l in
   InitialRegistration.self_id l' = fst (get_node_behaviour_event_id_type e)
   /\ (exists m, log w' = log w ++ sent base (post_of e) (next_reply (net w)) :: m)
   /\ (remaining = rest /\ InitialRegistration.node_registered l' = true
       \/ remaining = e :: rest /\ InitialRegistration.registration_service_error l' = true))
  /\ InitialRegistration.drain base prefix w l = (w, l, [])
  /\ (forall s fuel t w0 t' w0',
        mode t <> initial_registration ->
        node_behaviour_case s fuel t w0 = returned (t', w0') ->
        self_id t' = self_id t).
Proof.
  apply (@self_id_is_latched_by_initial_registration Example.registry_a
           [Example.added "devices/d0"] (Example.added "nodes/n1")
           [Example.added "devices/d1"] (set_net [response 201] Example.quiet)
           (Example.registering [(1, Example.registry_a)]));
    try reflexivity.
  constructor; [reflexivity | constructor].
Defined.

(** C9 as stated fails: without any restart of the agent, [self_id] is
    n1 during the first registered operation (heartbeat to
    /health/nodes/n1) and, after the store replaces the node by n2 and
    the node n1 is unregistered, the next initial registration sets it to
    n2 (heartbeat to /health/nodes/n2). *)
Lemma self_id_changes_on_re_registration :
  exists t' w',
    node_behaviour_thread Example.some_settings 4 7 thread_init Example.re_registration
    = returned (t', w')
    /\ requests_sent (log w')
       = [(Example.registry_a, post_of (Example.added "nodes/n1"), response 201);
          (Example.registry_a, health_of "n1", response 200);
          (Example.registry_a, delete_of (Example.removed "nodes/n1"), response 204);
          (Example.registry_a, post_of (Example.added "nodes/n2"), response 201);
          (Example.registry_a, health_of "n2", response 200)]
    /\ self_id t' = "n2".
Proof. vm_compute. eexists. eexists. repeat split. Qed.

(** ** C3: the discovery backoff *)

Lemma discover_log fallback w :
  log (fst (discover_registration_services fallback w)) = log w ++ [browsed].
Proof.
  unfold discover_registration_services.
  destruct (negb (empty _)); [reflexivity|].
  destruct (negb (is_empty fallback)); reflexivity.
Qed.





(** ** C5: the version counters *)





Lemma publications_app l1 l2 : publications (l1 ++ l2) = publications l1 ++ publications l2.
Proof.
  induction l1 as [|a l1 IH]; cbn [app publications]; [reflexivity|].
  destruct a as [| | | | | | |[v|]]; cbn [app]; now rewrite ?IH.
Qed.










Lemma loop_invariant (S : Type) (body : S -> step S) (I : S -> Prop) :
  (forall s s', I s -> body s = next s' -> I s') ->
  (forall s s', I s -> body s = break s' -> I s') ->
  forall fuel s s', I s -> loop body fuel s = returned s' -> I s'.
Proof.
  intros Hn Hb fuel. induction fuel as [|fuel IH]; intros s s' Hs H; cbn [loop] in H;
    [discriminate|].
  destruct (body s) as [s1|s1| |u] eqn:Hbody; try discriminate.
  - eapply IH; [|exact H]. eapply Hn; eauto.
  - inversion H; subst. eapply Hb; eauto.
Qed.








(** ** The same flag in initial registration *)

(** Initial registration never lowers [registration_service_error]
    either: with registries a and b, a 503 from a to the node's POST pops
    a and then b, which is never sent a request; the function returns
    with the list empty and the node's event back in the grain. *)
Lemma initial_registration_error_pops_every_registry :
  exists w' l',
    InitialRegistration.initial_registration 4 ""
      (of_insertions [(1, Example.registry_a); (2, Example.registry_b)])
      (set_net [response 503; response 201]
         (Example.with_store [("nodes/n1", "{}")] Example.quiet))
    = returned (w', l')
    /\ requests_sent (log w')
       = [(Example.registry_a, post_of (Example.added "nodes/n1"), response 503)]
    /\ InitialRegistration.registration_services l' = []
    /\ net w' = [response 201]
    /\ map path (grain_data w') = ["nodes/n1"].
Proof. vm_compute. eexists. eexists. repeat split. Qed.

(** * Further properties *)

(** ** Event paths *)

Lemma find_app_slash (c : ascii) (s1 s2 : string) :
  find c s1 = None ->
  find c (s1 ++ String c s2) = Some (String.length s1).
Proof.
  induction s1 as [|a s1 IH]; cbn [find String.append String.length]; intros H.
  - now rewrite Ascii.eqb_refl.
  - destruct (Ascii.eqb a c); [discriminate|].
    destruct (find c s1); [discriminate|]. now rewrite IH.
Qed.

Lemma substring_prefix (s1 s2 : string) :
  substring 0 (String.length s1) (s1 ++ s2) = s1.
Proof.
  induction s1 as [|a s1 IH]; cbn [String.append String.length substring].
  - destruct s2; reflexivity.
  - now rewrite IH.
Qed.

Lemma substring_all (s : string) (m : nat) :
  (String.length s <= m)%nat -> substring 0 m s = s.
Proof.
  revert m. induction s as [|a s IH]; intros m H; cbn [String.length] in H.
  - destruct m; reflexivity.
  - destruct m as [|m]; [lia|]. cbn [substring]. rewrite IH by lia. reflexivity.
Qed.

Lemma substring_suffix (s1 s2 : string) (c : ascii) (m : nat) :
  (String.length s2 <= m)%nat ->
  substring (S (String.length s1)) m (s1 ++ String c s2) = s2.
Proof.
  intros H. induction s1 as [|a s1 IH]; cbn [String.append String.length substring].
  - now apply substring_all.
  - exact IH.
Qed.

Lemma length_append (s1 s2 : string) :
  String.length (s1 ++ s2) = (String.length s1 + String.length s2)%nat.
Proof. induction s1 as [|a s1 IH]; cbn; [reflexivity | now rewrite IH]. Qed.

(** X1.  [get_node_behaviour_event_id_type] splits a path at its first
    slash: for a resource type without a slash, the path
    ["<resourceType>/<id>"] yields the id (which may itself contain
    slashes) and the type of that resource type.  A path without any
    slash yields the whole path as the id, and as the resource type. *)
Theorem event_path_splits_at_first_slash :
  (forall resourceType i k p,
     find "/"%char resourceType = None ->
     get_node_behaviour_event_id_type
       {| path := resourceType ++ String "/"%char i; kind := k; post := p |}
     = (i, type_from_resourceType resourceType))
  /\ (forall e,
        find "/"%char (path e) = None ->
        get_node_behaviour_event_id_type e = (path e, type_from_resourceType (path e))).
Proof.
  split.
  - intros resourceType i k p H. unfold get_node_behaviour_event_id_type. cbn [path].
    rewrite (find_app_slash _ _ i H), substring_prefix, substring_suffix; [reflexivity|].
    rewrite length_append. cbn [String.length]. lia.
  - intros e H. unfold get_node_behaviour_event_id_type. now rewrite H.
Qed.

(** X1 at concrete paths: an id with a slash of its own, and a path
    without one. *)
Lemma event_path_splits_at_first_slash_witness :
  get_node_behaviour_event_id_type
    {| path := "senders" ++ String "/"%char "a/b"; kind := resource_added_event; post := "{}" |}
  = ("a/b", type_from_resourceType "senders")
  /\ get_node_behaviour_event_id_type (Example.added "nodes")
     = ("nodes", type_from_resourceType "nodes").
Proof.
  destruct event_path_splits_at_first_slash as [H1 H2]. split.
  - apply (H1 "senders" "a/b"). reflexivity.
  - apply (H2 (Example.added "nodes")). reflexivity.
Defined.

(** ** Discovery *)

Lemma insert_permutation kv (m : multimap) : Permutation (insert kv m) (kv :: m).
Proof.
  induction m as [|e m IH]; cbn [insert]; [reflexivity|].
  destruct (fst kv <? fst e); [reflexivity|].
  rewrite IH. apply perm_swap.
Qed.

Lemma insert_by_priority kv (m : multimap) : by_priority m -> by_priority (insert kv m).
Proof.
  unfold by_priority. induction m as [|e m IH]; cbn [insert]; intros H.
  - repeat constructor.
  - inversion H as [|x y Hs Hf]; subst.
    destruct (fst kv <? fst e) eqn:Hlt.
    + apply Z.ltb_lt in Hlt. unfold service_priority in *. constructor; [exact H|].
      constructor; [cbv beta; lia|]. eapply Forall_impl; [|exact Hf].
      cbv beta. intros a Ha. lia.
    + apply Z.ltb_ge in Hlt. unfold service_priority in *. constructor; [now apply IH|].
      eapply Permutation_Forall; [symmetry; apply insert_permutation|].
      constructor; [exact Hlt | exact Hf].
Qed.

Lemma of_insertions_sorted_permutation (l : list (service_priority * uri)) :
  by_priority (of_insertions l) /\ Permutation (of_insertions l) l.
Proof.
  induction l as [|x l IH] using rev_ind.
  - split; [constructor | reflexivity].
  - destruct IH as [Hs Hp]. rewrite of_insertions_snoc. split.
    + now apply insert_by_priority.
    + rewrite insert_permutation, Hp. apply Permutation_cons_append.
Qed.

(** X2.  [discover_registration_services] browses once.  When the
    browse resolves anything, the result holds exactly the resolved
    registries, ordered by priority, and the fallback registry is not
    used; when it resolves nothing the result is the fallback registry
    alone, at [no_priority], or empty if none is configured. *)
Theorem discovery_result fallback w :
  let found := hd [] (mdns w) in
  let result := snd (discover_registration_services fallback w) in
  mdns (fst (discover_registration_services fallback w)) = tl (mdns w)
  /\ log (fst (discover_registration_services fallback w)) = log w ++ [browsed]
  /\ by_priority result
  /\ (found <> [] -> Permutation result found)
  /\ (found = [] ->
      result = if is_empty fallback then []
               else [(service_priorities.no_priority, fallback)]).
Proof.
  cbv zeta. unfold discover_registration_services.
  replace (match mdns w with [] => [] | f :: _ => f end) with (hd [] (mdns w))
    by (destruct (mdns w); reflexivity).
  destruct (of_insertions_sorted_permutation (hd [] (mdns w))) as [Hs Hp].
  destruct (hd [] (mdns w)) as [|x l] eqn:Hh.
  - change (of_insertions []) with (@nil (service_priority * uri)). cbn [empty negb].
    destruct (is_empty fallback); cbn [negb fst snd mdns log add_log set_mdns insert];
      repeat split; try congruence; repeat constructor.
  - destruct (of_insertions (x :: l)) as [|e m] eqn:Ho.
    + apply Permutation_nil in Hp. discriminate.
    + cbn [empty negb fst snd mdns log add_log set_mdns]. repeat split; auto.
      intros Hf. discriminate.
Qed.

(** ** The thread's modes *)





(** X4.  Every turn of the thread follows one of the arrows of the
    [switch]: no mode leads to itself except INITIAL_DISCOVERY (shut
    down while backing off) and PEER_TO_PEER, registered operation never
    leads to discovery or peer-to-peer operation directly, and so on.
    The thread enters INITIAL_REGISTRATION and REGISTERED_OPERATION only
    with a registry in the list, and REDISCOVERY and PEER_TO_PEER only
    with none. *)
Theorem thread_turn_follows_the_switch s fuel t w t' w' :
  node_behaviour_case s fuel t w = returned (t', w') ->
  transition (mode t) (mode t') = true
  /\ (mode t' = initial_registration \/ mode t' = registered_operation ->
      registration_services t' <> [])
  /\ (mode t' = rediscovery \/ mode t' = peer_to_peer_operation ->
      registration_services t' = []).
Proof.
  intros H. unfold node_behaviour_case in H. destruct (mode t) eqn:Hmode.
  - destruct (negb (Qeq_bool 0 (discovery_backoff t)) && _).
    + inversion H; subst. rewrite Hmode. cbn.
      repeat split; try congruence; intros [|]; congruence.
    + destruct (discover_registration_services _ _) as [w1 [|e m]]; cbn [empty negb] in H;
        inversion H; subst; cbn; repeat split; try congruence; auto;
        try (intros [|]; congruence).
  - destruct (InitialRegistration.initial_registration _ _ _ _) as [[w1 l1]| | |u];
      try discriminate.
    destruct (InitialRegistration.registration_services l1) as [|e m] eqn:Hs;
      cbn [empty negb] in H; inversion H; subst; cbn;
      repeat split; try congruence; auto; try (intros [|]; congruence).
  - destruct (RegisteredOperation.registered_operation _ _ _ _) as [[w1 l1]| | |u];
      try discriminate.
    inversion H; subst. unfold after_registered_operation. cbn.
    destruct (RegisteredOperation.registration_services l1) as [|e m] eqn:Hs;
      cbn; repeat split; try congruence; auto; try (intros [|]; congruence).
  - destruct (discover_registration_services _ _) as [w1 [|e m]];
      inversion H; subst; cbn; repeat split; try congruence; auto;
      try (intros [|]; congruence).
  - destruct (PeerToPeer.peer_to_peer_operation _ _ _ _) as [[w1 l1]| | |u];
      try discriminate.
    inversion H; subst. cbn.
    destruct (PeerToPeer.registration_services l1) as [|e m] eqn:Hs;
      cbn; repeat split; try congruence; auto; try (intros [|]; congruence).
Qed.


(** X4 at a concrete turn: the first discovery, which finds nothing. *)
Lemma thread_turn_follows_the_switch_witness :
  exists t' w',
    node_behaviour_case Example.some_settings 3 thread_init Example.quiet = returned (t', w')
    /\ transition (mode thread_init) (mode t') = true
    /\ (mode t' = rediscovery \/ mode t' = peer_to_peer_operation ->
        registration_services t' = []).
Proof.
  assert (Hrun : exists t' w',
            node_behaviour_case Example.some_settings 3 thread_init Example.quiet
            = returned (t', w')).
  { eexists. eexists. vm_compute. reflexivity. }
  destruct Hrun as (t' & w' & Hrun). exists t', w'. split; [exact Hrun|].
  destruct (@thread_turn_follows_the_switch _ _ _ _ _ _ Hrun) as (H1 & _ & H3).
  split; [exact H1 | exact H3].
Defined.

(** ** One event, one request *)

Lemma server_error_not_ok d :
  is_server_error_status_code d = true -> (d =? status_codes.OK) = false.
Proof.
  unfold is_server_error_status_code, status_codes.OK. intros H.
  apply andb_true_iff in H. destruct H as [H _]. apply Z.leb_le in H.
  apply Z.eqb_neq. lia.
Qed.

Ltac one_request :=
  repeat (cbn [net set_net add_log log fst snd tl server_side];
          try match goal with H : (_ =? _) = _ |- _ => rewrite H end);
  repeat split; intros; rewrite <- ?app_assoc; try reflexivity; try congruence.

Ltac one_request_error c :=
  let Hs := fresh "Hs" in
  destruct (is_server_error_status_code c) eqn:Hs;
  [|destruct (is_client_error_status_code c)]; one_request.

(** The handling of an event that takes one request. *)
Lemma request_registration_once base e w :
  (is_creation e = true -> next_reply (net w) <> response status_codes.OK) ->
  net (fst (request_registration base e w)) = tl (net w)
  /\ (snd (request_registration base e w) = inr tt <-> server_side (next_reply (net w)) = false)
  /\ log (fst (request_registration base e w))
     = log w ++ sent base (request_of e) (next_reply (net w))
             :: match next_reply (net w) with
                | failure => []
                | response c =>
                    if c =? expected_of e then [] else [error_logged (operation_of e) c]
                end.
Proof.
  intros Hc.
  destruct e as [p k d]. destruct w as [sh gd gu ru st nt ot md lg].
  unfold is_creation, request_of, expected_of, operation_of, post_of, delete_of,
    get_resource_event_type in *.
  unfold request_registration, bind, client_request, handle_registration_error_conditions,
    ret, throw, say, bind, get_resource_event_type.
  cbn [net kind path post] in *.
  destruct nt as [|[c|] nt]; cbn [next_reply] in *;
    destruct k; cbn [resource_event_type_eqb orb] in *;
    cbn [net set_net add_log log fst snd]; try solve [one_request].
  - destruct (c =? status_codes.Created) eqn:H1.
    + one_request.
      destruct (is_server_error_status_code c) eqn:Hs; [|reflexivity].
      now rewrite (server_error_not_created c Hs) in H1.
    + destruct (c =? status_codes.OK) eqn:H2.
      { apply Z.eqb_eq in H2. subst c. now destruct (Hc eq_refl). }
      cbn [net set_net add_log log fst snd]. rewrite H1. one_request_error c.
  - destruct (c =? status_codes.NoContent) eqn:H1.
    + one_request.
      destruct (is_server_error_status_code c) eqn:Hs; [|reflexivity].
      now rewrite (server_error_not_no_content c Hs) in H1.
    + one_request_error c.
  - destruct (c =? status_codes.OK) eqn:H1.
    + one_request.
      destruct (is_server_error_status_code c) eqn:Hs; [|reflexivity].
      now rewrite (server_error_not_ok c Hs) in H1.
    + one_request_error c.
  - destruct (c =? status_codes.Created) eqn:H1.
    + one_request.
      destruct (is_server_error_status_code c) eqn:Hs; [|reflexivity].
      now rewrite (server_error_not_created c Hs) in H1.
    + destruct (c =? status_codes.OK) eqn:H2.
      { apply Z.eqb_eq in H2. subst c. now destruct (Hc eq_refl). }
      cbn [net set_net add_log log fst snd]. rewrite H1. one_request_error c.
Qed.

(** X5.  Except for a creation whose POST is answered 200,
    [request_registration] makes exactly one request for an event: the
    POST of the resource for 'added', 'sync' and 'modified', the DELETE
    of its path for 'removed'.  It uses up one reply, completes exactly
    when the reply is not a server-side or connectivity issue (so a 4xx
    completes), and logs an error exactly when the status is not the one
    expected (201 for a creation, 200 for an update, 204 for a
    deletion). *)
Theorem event_is_dispatched_by_one_request base e w :
  (is_creation e = true -> next_reply (net w) <> response status_codes.OK) ->
  net (fst (request_registration base e w)) = tl (net w)
  /\ (snd (request_registration base e w) = inr tt <-> server_side (next_reply (net w)) = false)
  /\ log (fst (request_registration base e w))
     = log w ++ sent base (request_of e) (next_reply (net w))
             :: match next_reply (net w) with
                | failure => []
                | response c =>
                    if c =? expected_of e then [] else [error_logged (operation_of e) c]
                end.
Proof. apply request_registration_once. Qed.

(** X5 at a concrete input: an update answered 404 is one POST, an
    error in the log, and the request completes. *)
Lemma event_is_dispatched_by_one_request_witness :
  let e := Sample.modified "devices/d1" in
  let w := set_net [response 404; response 200] Example.quiet in
  net (fst (request_registration Example.registry_a e w)) = [response 200]
  /\ (snd (request_registration Example.registry_a e w) = inr tt <-> false = false)
  /\ log (fst (request_registration Example.registry_a e w))
     = [sent Example.registry_a (post_of e) (response 404); error_logged "update" 404].
Proof.
  exact (@event_is_dispatched_by_one_request Example.registry_a
           (Sample.modified "devices/d1")
           (set_net [response 404; response 200] Example.quiet)
           (fun H : false = true => match Bool.diff_false_true H with end)).
Defined.

Ltac by_replies :=
  repeat (cbn [net set_net add_log log fst snd];
          match goal with
          | |- context [match ?n with [] => _ | _ :: _ => _ end] =>
              is_var n; destruct n as [|[?|] ?]
          | |- context [if ?b then _ else _] => destruct b eqn:?
          end).

(** The requests of [request_registration], whatever the replies. *)
Lemma request_registration_requests base e w :
  exists notes,
    log (fst (request_registration base e w)) = log w ++ notes
    /\ (1 <= List.length (requests_sent notes) <= 3)%nat
    /\ Forall (fun x => fst (fst x) = base
                        /\ (snd (fst x) = post_of e \/ snd (fst x) = delete_of e))
              (requests_sent notes)
    /\ net (fst (request_registration base e w))
       = skipn (List.length (requests_sent notes)) (net w)
    /\ forall i, (i < List.length (requests_sent notes))%nat ->
         nth i (map snd (requests_sent notes)) failure = next_reply (skipn i (net w)).
Proof.
  destruct e as [p k d]. destruct w as [sh gd gu ru st nt ot md lg].
  unfold request_registration, bind, client_request, handle_registration_error_conditions,
    ret, throw, say, bind, get_resource_event_type.
  cbn [net kind path post log].
  destruct k; cbn [resource_event_type_eqb orb]; by_replies; try congruence;
    cbn [net set_net add_log log fst snd];
    (eexists; split; [rewrite <- ?app_assoc; reflexivity|]);
    cbn [requests_sent app List.length skipn map];
    (repeat split; try lia;
     [ repeat constructor; first [left; reflexivity | right; reflexivity]
     | intros [|[|[|i]]] Hi; cbn in Hi; try lia; reflexivity ]).
Qed.

(** X6.  Whatever the event and the replies, [request_registration]
    makes between one and three requests, each to the registry of the
    client it was given and each either the POST of the event's resource
    or the DELETE of its path; the requests use up the replies of the
    network one by one, in order. *)
Theorem request_registration_makes_at_most_three_requests base e w :
  exists notes,
    log (fst (request_registration base e w)) = log w ++ notes
    /\ (1 <= List.length (requests_sent notes) <= 3)%nat
    /\ Forall (fun x => fst (fst x) = base
                        /\ (snd (fst x) = post_of e \/ snd (fst x) = delete_of e))
              (requests_sent notes)
    /\ net (fst (request_registration base e w))
       = skipn (List.length (requests_sent notes)) (net w)
    /\ forall i, (i < List.length (requests_sent notes))%nat ->
         nth i (map snd (requests_sent notes)) failure = next_reply (skipn i (net w)).
Proof. apply request_registration_requests. Qed.

(** ** One heartbeat *)

(** X7.  [update_node_health] makes exactly one request, the POST of
    /health/nodes/<id> to the registry of its client, and uses up one
    reply.  It yields [true] (carry on) for every answer that is neither
    404 nor 5xx, [false] (the registry does not know the node) exactly
    for 404, and throws exactly on a server-side or connectivity issue;
    every status but 200 is logged as an error. *)
Theorem heartbeat_outcome base self w :
  net (fst (update_node_health base self w)) = tl (net w)
  /\ log (fst (update_node_health base self w))
     = log w ++ sent base (health_of self) (next_reply (net w))
             :: match next_reply (net w) with
                | failure => []
                | response c =>
                    if c =? status_codes.OK then [] else [error_logged "heartbeat" c]
                end
  /\ (snd (update_node_health base self w) = inr true
      <-> heartbeat_accepted (next_reply (net w)) = true)
  /\ (snd (update_node_health base self w) = inr false
      <-> next_reply (net w) = response status_codes.NotFound)
  /\ ((exists x, snd (update_node_health base self w) = inl x)
      <-> server_side (next_reply (net w)) = true).
Proof.
  destruct w as [sh gd gu ru st nt ot md lg].
  unfold update_node_health, bind, client_request, handle_registration_error_conditions,
    ret, throw, say, bind, health_of.
  cbn [net log].
  destruct nt as [|[c|] nt];
    cbn [next_reply heartbeat_accepted server_side net set_net add_log log fst snd tl].
  - repeat split; intros; try congruence; try reflexivity; eauto.
  - destruct (c =? status_codes.OK) eqn:Hok.
    + destruct (ok_not_server_error c Hok) as [Hs Hnf]. rewrite Hs, Hnf.
      cbn [net set_net add_log log fst snd negb andb].
      repeat split; intros; try congruence; try reflexivity.
      * apply Z.eqb_eq in Hok. subst c. discriminate.
      * destruct H; discriminate.
    + destruct (c =? status_codes.NotFound) eqn:Hnf.
      * rewrite (not_found_not_server_error c Hnf).
        cbn [net set_net add_log log fst snd negb andb].
        apply Z.eqb_eq in Hnf. subst c.
        repeat split; intros; rewrite <- ?app_assoc; try congruence; try reflexivity.
        destruct H; discriminate.
      * apply Z.eqb_neq in Hnf.
        destruct (is_server_error_status_code c) eqn:Hs;
          [|destruct (is_client_error_status_code c)];
          cbn [net set_net add_log log fst snd negb andb];
          repeat split; intros; rewrite <- ?app_assoc; try congruence; try reflexivity;
          eauto; destruct H; discriminate.
  - repeat split; intros; try congruence; try reflexivity; eauto.
Qed.

(** ** The version counters count events *)

Lemma count_type_cons t e events :
  count_type t (e :: events)
  = ((if type_eqb t (snd (get_node_behaviour_event_id_type e)) then 1 else 0)
     + count_type t events)%N.
Proof.
  unfold count_type. cbn [filter].
  destruct (type_eqb t (snd (get_node_behaviour_event_id_type e)));
    cbn [List.length]; lia.
Qed.

Lemma update_resource_version_fields v t :
  let v' := update_resource_version v t in
  (ver_self v' = ver_self v + (if type_eqb node t then 1 else 0)
   /\ ver_devices v' = ver_devices v + (if type_eqb device t then 1 else 0)
   /\ ver_sources v' = ver_sources v + (if type_eqb source t then 1 else 0)
   /\ ver_flows v' = ver_flows v + (if type_eqb flow t then 1 else 0)
   /\ ver_senders v' = ver_senders v + (if type_eqb sender t then 1 else 0)
   /\ ver_receivers v' = ver_receivers v + (if type_eqb receiver t then 1 else 0))%N.
Proof.
  destruct v, t; cbv - [N.add]; repeat split; lia.
Qed.

(** X8.  Over the events of one drain, [update_resource_version] adds
    to each of the six counters the number of events of its resource
    type, whatever their kind; events of any other type change
    nothing.  (The counters are the non-negative integers of the data
    model, without a bound.) *)
Theorem versions_count_events_by_type events v :
  let v' := PeerToPeer.update_versions events v in
  (ver_self v' = ver_self v + count_type node events
   /\ ver_devices v' = ver_devices v + count_type device events
   /\ ver_sources v' = ver_sources v + count_type source events
   /\ ver_flows v' = ver_flows v + count_type flow events
   /\ ver_senders v' = ver_senders v + count_type sender events
   /\ ver_receivers v' = ver_receivers v + count_type receiver events)%N.
Proof.
  revert v. induction events as [|e events IH]; intros v.
  - cbv - [N.add]. repeat split; lia.
  - unfold PeerToPeer.update_versions in *. cbn [fold_left]. cbv zeta in *.
    destruct (IH (update_resource_version v (snd (get_node_behaviour_event_id_type e))))
      as (H1 & H2 & H3 & H4 & H5 & H6).
    destruct (update_resource_version_fields v (snd (get_node_behaviour_event_id_type e)))
      as (F1 & F2 & F3 & F4 & F5 & F6).
    rewrite H1, H2, H3, H4, H5, H6, F1, F2, F3, F4, F5, F6, !count_type_cons.
    repeat split; lia.
Qed.

(** ** Registered operation dispatches the events in order *)

Lemma push_events_rest events : forall w,
  shutdown (fold_left push_event events w) = shutdown w
  /\ net (fold_left push_event events w) = net w.
Proof.
  induction events as [|e events IH]; intros w; cbn [fold_left]; [auto|].
  destruct (IH (push_event w e)) as (H1 & H2). rewrite H1, H2. auto.
Qed.

Lemma apply_change_rest c w :
  shutdown (apply_change c w) = shutdown w || c_shutdown c
  /\ net (apply_change c w) = net w.
Proof.
  unfold apply_change. cbn [shutdown net set_shutdown].
  destruct (push_events_rest (c_events c) w) as (H1 & H2). rewrite H1, H2. auto.
Qed.

(** An unlocked period in an undisturbed script changes the grain and
    the store only. *)
Lemma unlocked_undisturbed L (h : background_event -> world -> L -> world * L) w (l : L) :
  undisturbed (others w) ->
  snd (unlocked h w l) = l
  /\ shutdown (fst (unlocked h w l)) = shutdown w
  /\ net (fst (unlocked h w l)) = net w
  /\ log (fst (unlocked h w l)) = log w
  /\ undisturbed (others (fst (unlocked h w l))).
Proof.
  intros Hu. unfold unlocked. destruct (others w) as [|c script] eqn:Ho.
  - cbn [fst snd]. rewrite Ho. auto.
  - inversion Hu as [|c' script' [Hs Hb] Hrest]; subst.
    unfold absorb. rewrite Hb. cbn [fst snd].
    destruct (apply_change_rest c (set_others script w)) as (H1 & H2).
    destruct (apply_change_grain c (set_others script w)) as (_ & H3 & _).
    rewrite H1, H2, H3, apply_change_log, Hs, orb_false_r. auto.
Qed.

(** X9.  With no flag up and the other threads not shutting down nor
    running the background task, the drain of registered operation
    handles the pending events first in, first out: when every reply is
    one that settles its event with one request (anything but a 5xx, and
    not a 200 to a creation), and none of the events is the removal of
    the node itself, every event is consumed, the requests on the wire
    are exactly the events' requests in the order of the events, each
    reply is used for its event, and no flag is raised. *)
Theorem events_are_dispatched_in_order self base events cs n w l :
  shutdown w = false ->
  RegisteredOperation.registration_service_error l = false ->
  RegisteredOperation.node_unregistered l = false ->
  undisturbed (others w) ->
  Forall (fun e => is_own_removal self e = false) events ->
  Forall2 settles events cs ->
  net w = map response cs ++ n ->
  exists w',
    RegisteredOperation.drain self base events w l = (w', l, [])
    /\ net w' = n
    /\ requests_sent (log w')
       = requests_sent (log w) ++ map (dispatch base) (combine events cs).
Proof.
  intros Hsh He Hu Ho Hown Hset. revert w Hsh Ho Hown.
  induction Hset as [|e c events cs [Hc1 Hc2] Hset IH]; intros w Hsh Ho Hown Hn.
  - exists w. cbn [RegisteredOperation.drain map combine app] in *.
    rewrite app_nil_r. auto.
  - inversion Hown as [|e' events' Hown1 Hown2]; subst.
    cbn [RegisteredOperation.drain]. rewrite Hsh, He, Hu. cbn [orb].
    cbn [map app] in Hn.
    assert (Hfirst : is_creation e = true -> next_reply (net w) <> response status_codes.OK).
    { intros Hcr. rewrite Hn. cbn [next_reply]. intros Heq. inversion Heq.
      now apply Hc2. }
    destruct (@request_registration_once base e w Hfirst) as (R1 & R2 & R3).
    destruct (transport_only_request_registration base e w) as (S1 & _ & _ & _ & _ & S2).
    rewrite Hn in R1, R2, R3. cbn [next_reply tl server_side] in R1, R2, R3.
    destruct (request_registration base e w) as [w1 r]. cbn [fst snd] in *.
    assert (Hr : r = inr tt) by (apply R2; exact Hc1). subst r.
    assert (Ho1 : undisturbed (others w1)) by (rewrite S2; exact Ho).
    destruct (@unlocked_undisturbed _ (RegisteredOperation.background self) w1 l Ho1)
      as (U1 & U2 & U3 & U4 & U5).
    destruct (unlocked (RegisteredOperation.background self) w1 l) as [w2 l2].
    cbn [fst snd] in *. subst l2.
    unfold is_own_removal in Hown1. rewrite Hown1.
    destruct (IH w2) as (w' & D1 & D2 & D3); try congruence; auto.
    exists w'. split; [exact D1|]. split; [exact D2|].
    rewrite D3, U4, R3, requests_sent_app. cbn [combine map dispatch fst snd].
    rewrite <- app_assoc. f_equal.
    destruct (c =? expected_of e); reflexivity.
Qed.

(** X9 at a concrete input: a creation answered 201, an update answered
    404 and a deletion answered 204. *)
Lemma events_are_dispatched_in_order_witness :
  let events := [Example.added "devices/d1"; Sample.modified "devices/d1";
                 Example.removed "devices/d1"] in
  let w := set_net [response 201; response 404; response 204] Example.quiet in
  let l := Example.operating [(1, Example.registry_a)] Example.registry_a in
  exists w',
    RegisteredOperation.drain "n1" Example.registry_a events w l = (w', l, [])
    /\ net w' = []
    /\ requests_sent (log w')
       = [(Example.registry_a, post_of (Example.added "devices/d1"), response 201);
          (Example.registry_a, post_of (Sample.modified "devices/d1"), response 404);
          (Example.registry_a, delete_of (Example.removed "devices/d1"), response 204)].
Proof.
  apply (@events_are_dispatched_in_order "n1" Example.registry_a
           [Example.added "devices/d1"; Sample.modified "devices/d1";
            Example.removed "devices/d1"]
           [201; 404; 204] []
           (set_net [response 201; response 404; response 204] Example.quiet)
           (Example.operating [(1, Example.registry_a)] Example.registry_a));
    try reflexivity.
  - constructor.
  - repeat constructor.
  - repeat constructor; intros; discriminate.
Defined.

(** ** A server-side error stops the drain *)

Lemma ro_background_heartbeats self b w l :
  exists m,
    log (fst (RegisteredOperation.background self b w l)) = log w ++ m
    /\ only_heartbeats self (requests_sent m).
Proof.
  unfold RegisteredOperation.background, only_heartbeats.
  destruct b, (RegisteredOperation.background_heartbeats l), (RegisteredOperation.client l);
    try (exists []; cbn [fst requests_sent]; rewrite app_nil_r; split; [reflexivity|constructor]).
  destruct w as [sh gd gu ru st nt ot md lg].
  unfold update_node_health, bind, client_request, handle_registration_error_conditions,
    ret, throw, say, bind.
  cbn [net log]. by_replies; cbn [net set_net add_log log fst snd];
    (eexists; split; [rewrite <- ?app_assoc; reflexivity|]);
    cbn [requests_sent app]; repeat constructor.
Qed.

Lemma ro_unlocked_heartbeats self w l :
  exists m,
    log (fst (unlocked (RegisteredOperation.background self) w l)) = log w ++ m
    /\ only_heartbeats self (requests_sent m).
Proof.
  unfold unlocked. destruct (others w) as [|c script].
  - exists []. cbn [fst requests_sent]. rewrite app_nil_r. split; [reflexivity|constructor].
  - unfold absorb. destruct (c_background c) as [b|].
    + destruct (ro_background_heartbeats self b (apply_change c (set_others script w)) l)
        as (m & Hm & Hh).
      exists m. rewrite Hm, apply_change_log. auto.
    + exists []. cbn [fst requests_sent]. rewrite apply_change_log, app_nil_r.
      split; [reflexivity|constructor].
Qed.

(** X10.  With no flag up, when the first request of the event at the
    head of the buffer meets a server-side or connectivity issue (5xx,
    no connection, timeout), the drain of registered operation stops
    there: [registration_service_error] is raised, the event and all
    those behind it stay in the buffer to be restored to the grain, and
    no request is made for any of them; whatever else goes out meanwhile
    is a heartbeat of the background task. *)
Theorem server_error_keeps_the_event self base e rest w l :
  shutdown w = false ->
  RegisteredOperation.registration_service_error l = false ->
  RegisteredOperation.node_unregistered l = false ->
  server_side (next_reply (net w)) = true ->
  exists w' l' heartbeats,
    RegisteredOperation.drain self base (e :: rest) w l = (w', l', e :: rest)
    /\ RegisteredOperation.registration_service_error l' = true
    /\ RegisteredOperation.registration_services l' = RegisteredOperation.registration_services l
    /\ requests_sent (log w')
       = requests_sent (log w) ++ (base, request_of e, next_reply (net w)) :: heartbeats
    /\ only_heartbeats self heartbeats.
Proof.
  intros Hsh He Hu Hs.
  cbn [RegisteredOperation.drain]. rewrite Hsh, He, Hu. cbn [orb].
  assert (Hfirst : is_creation e = true -> next_reply (net w) <> response status_codes.OK).
  { intros _ Heq. rewrite Heq in Hs. discriminate. }
  destruct (@request_registration_once base e w Hfirst) as (_ & R2 & R3).
  destruct (request_registration base e w) as [w1 r]. cbn [fst snd] in *.
  destruct (ro_unlocked_heartbeats self w1 l) as (m & Hm & Hh).
  destruct (ROFacts.ro_unlocked_registry self w1 l) as [Hreg _].
  destruct (unlocked (RegisteredOperation.background self) w1 l) as [w2 l2].
  cbn [fst snd] in *.
  destruct r as [x|[]].
  - eexists. eexists. exists (requests_sent m). split; [reflexivity|].
    repeat split; auto.
    rewrite Hm, R3, !requests_sent_app. cbn [requests_sent].
    rewrite <- app_assoc. f_equal. cbn [app]. f_equal.
    destruct (next_reply (net w)) as [c|]; [|reflexivity].
    destruct (c =? expected_of e); reflexivity.
  - destruct R2 as [R2 _]. rewrite R2 in Hs; [discriminate|reflexivity].
Qed.

(** X10 at a concrete input: the POST of a device is answered 503 with
    a sender behind it. *)
Lemma server_error_keeps_the_event_witness :
  let e := Example.added "devices/d1" in
  let rest := [Example.added "senders/s1"] in
  let w := set_net [response 503; response 201] Example.quiet in
  let l := Example.operating [(1, Example.registry_a)] Example.registry_a in
  exists w' l' heartbeats,
    RegisteredOperation.drain "n1" Example.registry_a (e :: rest) w l = (w', l', e :: rest)
    /\ RegisteredOperation.registration_service_error l' = true
    /\ RegisteredOperation.registration_services l' = [(1, Example.registry_a)]
    /\ requests_sent (log w')
       = [] ++ (Example.registry_a, post_of e, response 503) :: heartbeats
    /\ only_heartbeats "n1" heartbeats.
Proof.
  apply (@server_error_keeps_the_event "n1" Example.registry_a
           (Example.added "devices/d1") [Example.added "senders/s1"]
           (set_net [response 503; response 201] Example.quiet)
           (Example.operating [(1, Example.registry_a)] Example.registry_a));
    reflexivity.
Defined.

(** ** Initial registration registers the node only *)

Lemma ir_unlocked_log w l :
  log (fst (unlocked InitialRegistration.background w l)) = log w.
Proof.
  unfold unlocked. destruct (others w) as [|c script]; [reflexivity|].
  unfold absorb, InitialRegistration.background.
  destruct (c_background c); cbn [fst]; now rewrite apply_change_log.
Qed.

(** X11.  Whatever the events and the replies, one drain of initial
    registration sends requests for at most one event, and that event is
    an 'added' or 'sync' event of type node among those pending: at most
    three requests, all to the selected registry, each the POST of that
    node or the DELETE of its path.  No other resource is registered
    during initial registration. *)
Theorem initial_registration_registers_only_the_node base events w l :
  exists notes,
    log (fst (fst (InitialRegistration.drain base events w l))) = log w ++ notes
    /\ (requests_sent notes = []
        \/ exists e,
             In e events
             /\ InitialRegistration.is_node_creation e = true
             /\ (List.length (requests_sent notes) <= 3)%nat
             /\ Forall (fun x => fst (fst x) = base
                                 /\ (snd (fst x) = post_of e \/ snd (fst x) = delete_of e))
                       (requests_sent notes)).
Proof.
  revert w l. induction events as [|e rest IH]; intros w l;
    cbn [InitialRegistration.drain].
  - exists []. cbn [fst]. rewrite app_nil_r. auto.
  - destruct (shutdown w || _ || _).
    { exists []. cbn [fst]. rewrite app_nil_r. auto. }
    destruct (InitialRegistration.is_node_creation e) eqn:Hn; cbn [negb].
    + destruct (request_registration_requests base e w) as (notes & N1 & N2 & N3 & _).
      destruct (request_registration base e w) as [w1 r]. cbn [fst] in N1.
      set (l1 := InitialRegistration.set_self_id _ l).
      pose proof (ir_unlocked_log w1 l1) as Hl.
      destruct (unlocked InitialRegistration.background w1 l1) as [w2 l2]. cbn [fst] in Hl.
      exists notes.
      assert (Hw2 : log w2 = log w ++ notes) by congruence.
      assert (Hres : exists e0, In e0 (e :: rest)
                /\ InitialRegistration.is_node_creation e0 = true
                /\ (List.length (requests_sent notes) <= 3)%nat
                /\ Forall (fun x => fst (fst x) = base
                                    /\ (snd (fst x) = post_of e0 \/ snd (fst x) = delete_of e0))
                          (requests_sent notes)).
      { exists e. repeat split; [left; reflexivity | exact Hn | lia | exact N3]. }
      destruct r as [x|[]].
      * cbn [fst]. auto.
      * rewrite ir_drain_registered by reflexivity. cbn [fst]. auto.
    + destruct (IH w l) as (notes & I1 & I2). exists notes. split; [exact I1|].
      destruct I2 as [I2|(e0 & J1 & J2 & J3 & J4)]; [left; exact I2|].
      right. exists e0. repeat split; auto. right. exact J1.
Qed.

(** ** What peer-to-peer operation advertises *)

Lemma advertisements_app l1 l2 :
  advertisements (l1 ++ l2) = advertisements l1 ++ advertisements l2.
Proof.
  induction l1 as [|a l1 IH]; cbn [app advertisements]; [reflexivity|].
  destruct a; cbn [app]; now rewrite ?IH.
Qed.

Lemma unadvertised_is_silent m : advertisements m = [] -> publications m = [].
Proof.
  induction m as [|a m IH]; [reflexivity|].
  destruct a; cbn [advertisements publications]; auto. discriminate.
Qed.

Lemma grows_unadvertised_refl w : grows_unadvertised w w.
Proof. exists []. now rewrite app_nil_r. Qed.

Lemma grows_unadvertised_trans w1 w2 w3 :
  grows_unadvertised w1 w2 -> grows_unadvertised w2 w3 -> grows_unadvertised w1 w3.
Proof.
  intros (m1 & H1 & A1) (m2 & H2 & A2). exists (m1 ++ m2).
  rewrite H2, H1, app_assoc, advertisements_app, A1, A2. auto.
Qed.

Lemma grows_unadvertised_same w w' : log w' = log w -> grows_unadvertised w w'.
Proof. intros H. exists []. now rewrite app_nil_r. Qed.

Lemma p2p_background_unadvertised s b w l :
  grows_unadvertised w (fst (PeerToPeer.background s b w l)).
Proof.
  unfold PeerToPeer.background.
  destruct b, (PeerToPeer.background_discovery l); try apply grows_unadvertised_refl.
  pose proof (discover_log (get_registration_service s) w) as H.
  destruct (discover_registration_services _ w) as [w' found]. cbn [fst] in H.
  destruct (empty found); cbn [fst]; exists [browsed]; auto.
Qed.

Lemma p2p_absorb_unadvertised s c w l :
  grows_unadvertised w (fst (absorb (PeerToPeer.background s) c w l)).
Proof.
  unfold absorb. destruct (c_background c) as [b|]; cbn [fst].
  - eapply grows_unadvertised_trans; [|apply p2p_background_unadvertised].
    apply grows_unadvertised_same. apply apply_change_log.
  - apply grows_unadvertised_same. apply apply_change_log.
Qed.

Lemma p2p_unlocked_unadvertised s w l :
  grows_unadvertised w (fst (unlocked (PeerToPeer.background s) w l)).
Proof.
  unfold unlocked. destruct (others w) as [|c script]; [apply grows_unadvertised_refl|].
  eapply grows_unadvertised_trans; [|apply p2p_absorb_unadvertised].
  apply grows_unadvertised_same. reflexivity.
Qed.

Lemma p2p_wait_unadvertised s script : forall w l w' l',
  wait_script (PeerToPeer.predicate) (PeerToPeer.background s) script w l = Some (w', l') ->
  grows_unadvertised w w'.
Proof.
  induction script as [|c script IH]; intros w l w' l' H; cbn [wait_script] in H.
  - destruct (PeerToPeer.predicate w l); inversion H; subst. apply grows_unadvertised_refl.
  - destruct (PeerToPeer.predicate w l).
    + inversion H; subst. apply grows_unadvertised_refl.
    + pose proof (p2p_absorb_unadvertised s c (set_others script w) l) as H1.
      destruct (absorb _ c _ l) as [w1 l1]. cbn [fst] in H1.
      eapply grows_unadvertised_trans; [|exact (IH _ _ _ _ H)].
      eapply grows_unadvertised_trans; [|exact H1].
      apply grows_unadvertised_same. reflexivity.
Qed.

Lemma advertised_with_versions_grows s log0 w w' :
  advertised_with_versions s log0 w -> grows_unadvertised w w' ->
  advertised_with_versions s log0 w'.
Proof.
  intros (notes & Hl & Ha) (m & Hm & Hq). exists (notes ++ m).
  rewrite Hm, Hl, app_assoc, advertisements_app, publications_app, Hq, Ha.
  rewrite (unadvertised_is_silent m Hq), !app_nil_r. auto.
Qed.

Lemma advertised_with_versions_publish s log0 w v :
  advertised_with_versions s log0 w ->
  advertised_with_versions s log0 (update_node_service s (Some v) w).
Proof.
  intros (notes & Hl & Ha). unfold update_node_service.
  destruct (service_priorities.no_priority =? pri s) eqn:Hp; cbn [negb].
  - exists notes. rewrite Hp. auto.
  - exists (notes ++ [service_updated (Some v)]). cbn [log add_log].
    rewrite Hl, app_assoc, advertisements_app, publications_app, Hp in *.
    cbn [advertisements publications]. rewrite Ha, map_app. auto.
Qed.

Lemma p2p_iteration_advertises s log0 wl wl' :
  advertised_with_versions s log0 (fst wl) ->
  PeerToPeer.iteration s wl = next wl' \/ PeerToPeer.iteration s wl = break wl' ->
  advertised_with_versions s log0 (fst wl').
Proof.
  intros HI H. destruct wl as [w l]. unfold PeerToPeer.iteration, condition_wait in H.
  cbn [fst snd] in *.
  destruct (wait_script _ _ (others w) w l) as [[w1 l1]|] eqn:Hw;
    [|destruct H; discriminate].
  pose proof (advertised_with_versions_grows HI (p2p_wait_unadvertised s _ _ _ Hw)) as H1.
  destruct (shutdown w1 || PeerToPeer.registration_services_discovered l1).
  - destruct H as [H|H]; inversion H; subst. exact H1.
  - cbn [node_behaviour_grain_guard] in H.
    set (v := PeerToPeer.update_versions (grain_data w1) (PeerToPeer.ver l1)) in *.
    set (w2 := set_grain [] (strictly_increasing_update w1) w1) in *.
    assert (H2 : advertised_with_versions s log0 w2) by exact H1.
    pose proof (p2p_unlocked_unadvertised s (update_node_service s (Some v) w2) l1) as Hs3.
    destruct (unlocked (PeerToPeer.background s) _ l1) as [w3 l3]. cbn [fst snd] in *.
    destruct H as [H|H]; inversion H; subst. clear H.
    cbn [node_behaviour_grain_guard_destroy fst].
    eapply advertised_with_versions_grows; [|exact Hs3].
    apply advertised_with_versions_publish. exact H2.
Qed.

(** X12.  What one call of [peer_to_peer_operation] does to the node's
    mDNS service.  When the node is advertised ([pri] is not
    [no_priority]) every update of the service made during the session
    carries the 'ver_' records, except the very last one, made on the
    way out, which withdraws them; when the node is not advertised the
    service is never updated at all. *)
Theorem peer_to_peer_withdraws_versions_on_exit s fuel services w w' l' :
  PeerToPeer.peer_to_peer_operation s fuel services w = returned (w', l') ->
  exists notes,
    log w' = log w ++ notes
    /\ advertisements notes
       = if service_priorities.no_priority =? pri s then []
         else map Some (publications notes) ++ [None].
Proof.
  intros H. unfold PeerToPeer.peer_to_peer_operation in H.
  set (w0 := update_node_service s (Some api_resource_versions_init) w) in *.
  match type of H with context [loop _ fuel ?st] => set (st0 := st) in * end.
  destruct (loop (PeerToPeer.iteration s) fuel st0) as [[w1 l1]| | |u] eqn:Hloop;
    try discriminate.
  assert (HI : advertised_with_versions s (log w) w1).
  { change w1 with (fst (w1, l1)).
    eapply (@loop_invariant _ (PeerToPeer.iteration s)
              (fun wl => advertised_with_versions s (log w) (fst wl)));
      [| | |exact Hloop].
    - intros x x' Hx Hb. eapply p2p_iteration_advertises; eauto.
    - intros x x' Hx Hb. eapply p2p_iteration_advertises; eauto.
    - cbn [fst st0]. apply advertised_with_versions_publish.
      exists []. rewrite app_nil_r. split; [reflexivity|].
      destruct (_ =? _); reflexivity. }
  destruct HI as (notes & Hl & Ha).
  destruct (p2p_unlocked_unadvertised s (update_node_service s None w1) l1) as (m & Hm & Hq).
  destruct (unlocked (PeerToPeer.background s) _ l1) as [w2 l2]. cbn [fst] in *.
  inversion H; subst. clear H. cbn [log add_log]. rewrite Hm.
  unfold update_node_service.
  destruct (service_priorities.no_priority =? pri s) eqn:Hp; cbn [negb].
  - exists (notes ++ m ++ [background_cancelled]).
    rewrite Hl, <- !app_assoc. split; [reflexivity|].
    rewrite !advertisements_app, Ha, Hq. reflexivity.
  - exists (notes ++ service_updated None :: m ++ [background_cancelled]).
    cbn [log add_log]. rewrite Hl, <- !app_assoc. split; [reflexivity|].
    rewrite advertisements_app, publications_app. cbn [advertisements publications].
    rewrite advertisements_app, publications_app, Ha, Hq.
    rewrite (unadvertised_is_silent m Hq). cbn [advertisements publications app].
    rewrite app_nil_r. reflexivity.
Qed.

(** X12 at a concrete input: one session in which a node is added before
    the server shuts down. *)
Lemma peer_to_peer_withdraws_versions_on_exit_witness :
  exists w' l' notes,
    PeerToPeer.peer_to_peer_operation Example.some_settings 3 []
      (set_others [Example.arrive [Example.added "nodes/n1"]; Example.shut_down]
         Example.quiet) = returned (w', l')
    /\ log w' = [] ++ notes
    /\ advertisements notes = map Some (publications notes) ++ [None].
Proof.
  assert (Hrun : exists w' l',
            PeerToPeer.peer_to_peer_operation Example.some_settings 3 []
              (set_others [Example.arrive [Example.added "nodes/n1"]; Example.shut_down]
                 Example.quiet) = returned (w', l')).
  { eexists. eexists. vm_compute. reflexivity. }
  destruct Hrun as (w' & l' & Hrun).
  destruct (@peer_to_peer_withdraws_versions_on_exit _ _ _ _ _ _ Hrun) as (notes & H1 & H2).
  exists w', l', notes. split; [exact Hrun|]. split; [exact H1 | exact H2].
Defined.

(** ** Shutdown *)

(** X13.  The thread returns only when the server is shutting down:
    whatever the modes it goes through, [node_behaviour_thread] leaves
    its loop at the test of [shutdown] and nowhere else. *)
Theorem thread_returns_only_on_shutdown s fuel turns t w t' w' :
  node_behaviour_thread s fuel turns t w = returned (t', w') ->
  shutdown w' = true.
Proof.
  revert t w. induction turns as [|turns IH]; intros t w H;
    cbn [node_behaviour_thread] in H; [discriminate|].
  destruct (shutdown w) eqn:Hsh.
  - inversion H; subst. exact Hsh.
  - destruct (node_behaviour_case s fuel t w) as [[t1 w1]| | |u]; try discriminate.
    exact (IH _ _ H).
Qed.

(** X13 at a concrete run: registration with the fallback registry,
    ended by the shutdown of the server. *)
Lemma thread_returns_only_on_shutdown_witness :
  exists t' w',
    node_behaviour_thread Sample.fallback_settings 4 7 thread_init Sample.fallback_run
    = returned (t', w')
    /\ shutdown w' = true.
Proof.
  assert (Hrun : exists t' w',
            node_behaviour_thread Sample.fallback_settings 4 7 thread_init
              Sample.fallback_run = returned (t', w')).
  { eexists. eexists. vm_compute. reflexivity. }
  destruct Hrun as (t' & w' & Hrun). exists t', w'. split; [exact Hrun|].
  exact (@thread_returns_only_on_shutdown _ _ _ _ _ _ _ Hrun).
Defined.

(** Without the heartbeat task the background of registered operation
    does nothing. *)
Lemma ro_background_idle self b w l :
  RegisteredOperation.background_heartbeats l = false ->
  RegisteredOperation.background self b w l = (w, l).
Proof.
  intros H. unfold RegisteredOperation.background. rewrite H. now destruct b.
Qed.

Lemma ro_cancel_idle self w l :
  RegisteredOperation.background_heartbeats l = false ->
  log (fst (RegisteredOperation.cancel self w l)) = log w ++ [background_cancelled]
  /\ RegisteredOperation.registration_services (snd (RegisteredOperation.cancel self w l))
     = RegisteredOperation.registration_services l
  /\ exists used, grain_data (fst (RegisteredOperation.cancel self w l))
                  = grain_data w ++ arrivals used.
Proof.
  intros H. unfold RegisteredOperation.cancel, unlocked.
  destruct (others w) as [|c script].
  - cbn [fst snd log add_log]. repeat split. exists []. cbn. now rewrite app_nil_r.
  - unfold absorb.
    destruct (apply_change_grain c (set_others script w)) as (G & _ & _).
    destruct (c_background c) as [b|]; [rewrite (@ro_background_idle self b _ l H)|];
      cbn [fst snd log add_log RegisteredOperation.set_background_heartbeats
           RegisteredOperation.registration_services grain_data];
      rewrite apply_change_log; repeat split;
      exists [c]; rewrite G; cbn [arrivals flat_map grain_data set_others];
      now rewrite app_nil_r.
Qed.

(** X14.  Entered while the server is shutting down, initial
    registration and registered operation return at once: no request is
    made, no registry is dropped from the list and the node's id is as
    it was; initial registration still resets the grain to the 'sync'
    events of the resources. *)
Theorem shut_down_server_gets_no_request self fuel services w :
  shutdown w = true ->
  (exists w' l',
     InitialRegistration.initial_registration (S fuel) self services w = returned (w', l')
     /\ log w' = log w
     /\ grain_data w' = make_resource_events w
     /\ InitialRegistration.registration_services l' = services
     /\ InitialRegistration.self_id l' = self)
  /\ (exists w' l',
        RegisteredOperation.registered_operation self (S fuel) services w = returned (w', l')
        /\ log w' = log w ++ [background_cancelled]
        /\ RegisteredOperation.registration_services l' = services).
Proof.
  intros Hsh. split.
  - unfold InitialRegistration.initial_registration. cbn [loop].
    unfold InitialRegistration.iteration, condition_wait. cbn [fst snd others set_grain].
    assert (Hw : forall script l,
               wait_script InitialRegistration.predicate InitialRegistration.background script
                 (set_grain (make_resource_events w) (strictly_increasing_update w) w) l
               = Some (set_grain (make_resource_events w) (strictly_increasing_update w) w, l)).
    { intros script l. destruct script; cbn [wait_script];
        unfold InitialRegistration.predicate; cbn [shutdown set_grain]; rewrite Hsh;
        reflexivity. }
    rewrite Hw. cbn [InitialRegistration.registration_service_error].
    unfold InitialRegistration.turn. cbn [shutdown set_grain]. rewrite Hsh. cbn [orb].
    eexists. eexists. split; [reflexivity|]. repeat split.
  - unfold RegisteredOperation.registered_operation. cbn [loop].
    unfold RegisteredOperation.iteration, condition_wait. cbn [fst snd].
    assert (Hw : forall script l,
               wait_script (RegisteredOperation.predicate)
                 (RegisteredOperation.background self) script w l = Some (w, l)).
    { intros script l. destruct script; cbn [wait_script];
        unfold RegisteredOperation.predicate; rewrite Hsh; reflexivity. }
    rewrite Hw. cbn [RegisteredOperation.registration_service_error].
    unfold RegisteredOperation.turn. rewrite Hsh. cbn [orb].
    match goal with |- context [RegisteredOperation.cancel self w ?l0] =>
      destruct (@ro_cancel_idle self w l0 eq_refl) as (C1 & C2 & _);
      destruct (RegisteredOperation.cancel self w l0) as [w' l'] end.
    exists w', l'. cbn [fst snd] in *. auto.
Qed.

(** X14 at a concrete input. *)
Lemma shut_down_server_gets_no_request_witness :
  let w := set_shutdown true (Example.with_store [("nodes/n1", "{}")] Example.quiet) in
  (exists w' l',
     InitialRegistration.initial_registration 1 "n1" [(1, Example.registry_a)] w
     = returned (w', l')
     /\ log w' = log w
     /\ grain_data w' = make_resource_events w
     /\ InitialRegistration.registration_services l' = [(1, Example.registry_a)]
     /\ InitialRegistration.self_id l' = "n1")
  /\ (exists w' l',
        RegisteredOperation.registered_operation "n1" 1 [(1, Example.registry_a)] w
        = returned (w', l')
        /\ log w' = log w ++ [background_cancelled]
        /\ RegisteredOperation.registration_services l' = [(1, Example.registry_a)]).
Proof.
  exact (@shut_down_server_gets_no_request "n1" 0 [(1, Example.registry_a)]
           (set_shutdown true (Example.with_store [("nodes/n1", "{}")] Example.quiet))
           eq_refl).
Defined.

(** ** A registry that does not know the node *)

Lemma ro_wait_ready self w l :
  RegisteredOperation.predicate w l = true ->
  condition_wait RegisteredOperation.predicate (RegisteredOperation.background self) w l
  = Some (w, l).
Proof.
  intros H. unfold condition_wait. destruct (others w); cbn [wait_script]; now rewrite H.
Qed.

(** The turn of registered operation that adopts a registry whose
    answer to the first heartbeat is 404. *)
Lemma ro_iteration_not_found self base w l n :
  shutdown w = false ->
  RegisteredOperation.registration_service_error l = false ->
  RegisteredOperation.node_unregistered l = false ->
  RegisteredOperation.client_is base l = false ->
  top_registration_service (RegisteredOperation.registration_services l) = Some base ->
  (RegisteredOperation.most_recent_update l < grain_updated w)%N ->
  net w = response status_codes.NotFound :: n ->
  exists w1 l1,
    RegisteredOperation.iteration self (w, l) = next (w1, l1)
    /\ RegisteredOperation.node_unregistered l1 = true
    /\ RegisteredOperation.registration_service_error l1 = false
    /\ RegisteredOperation.background_heartbeats l1 = RegisteredOperation.background_heartbeats l
    /\ RegisteredOperation.registration_services l1 = RegisteredOperation.registration_services l
    /\ log w1 = log w ++ [client_created base;
                          sent base (health_of self) (response status_codes.NotFound);
                          error_logged "heartbeat" status_codes.NotFound]
    /\ grain_data w1 = grain_data w
    /\ others w1 = others w
    /\ net w1 = n.
Proof.
  intros Hsh He Hu Hc Htop Hm Hn.
  unfold RegisteredOperation.iteration. cbn [fst snd].
  rewrite ro_wait_ready
    by (unfold RegisteredOperation.predicate; apply N.ltb_lt in Hm; rewrite Hm;
        apply orb_true_r).
  rewrite He. unfold RegisteredOperation.turn.
  assert (Hne : empty (RegisteredOperation.registration_services l) = false).
  { destruct (RegisteredOperation.registration_services l); [discriminate|reflexivity]. }
  rewrite Hsh, Hne, Hu, Htop. cbn [orb].
  unfold RegisteredOperation.select. rewrite Hc.
  destruct w as [sh gd gu ru st nt ot md lg]. destruct l as [services cl bg err unreg mru].
  cbn [net shutdown RegisteredOperation.registration_service_error
       RegisteredOperation.node_unregistered] in *. subst.
  unfold update_node_health, bind, client_request, ret, say, health_of.
  cbn. eexists. eexists. split; [reflexivity|].
  cbn. rewrite <- !app_assoc. repeat split.
Qed.

(** X15.  Registered operation entered with a registry that answers the
    first heartbeat 404 (it does not know the node): that heartbeat is
    the only request made, no event is taken from the grain, the registry
    stays in the list, and the thread goes back to initial registration
    to register the node again with the same registries. *)
Theorem unknown_node_is_registered_again s fuel t w base n :
  mode t = registered_operation ->
  shutdown w = false ->
  top_registration_service (registration_services t) = Some base ->
  net w = response status_codes.NotFound :: n ->
  (0 < grain_updated w)%N ->
  exists t' w',
    node_behaviour_case s (S (S fuel)) t w = returned (t', w')
    /\ mode t' = initial_registration
    /\ registration_services t' = registration_services t
    /\ self_id t' = self_id t
    /\ requests_sent (log w')
       = requests_sent (log w)
         ++ [(base, health_of (self_id t), response status_codes.NotFound)]
    /\ net w' = n
    /\ exists used, grain_data w' = grain_data w ++ arrivals used.
Proof.
  intros Hmode Hsh Htop Hn Hg.
  unfold node_behaviour_case. rewrite Hmode.
  unfold RegisteredOperation.registered_operation. cbn [loop].
  match goal with |- context [RegisteredOperation.iteration _ (w, ?l)] => set (l0 := l) end.
  destruct (@ro_iteration_not_found (self_id t) base w l0 n)
    as (w1 & l1 & Hit & Hu1 & He1 & Hb1 & Hs1 & Hl1 & Hg1 & Ho1 & Hn1); auto.
  rewrite Hit, (ro_iteration_unregistered (self_id t) w1 l1 Hu1 He1).
  destruct (@ro_cancel_idle (self_id t) w1 l1 Hb1) as (C1 & C2 & used & C3).
  assert (C4 : net (fst (RegisteredOperation.cancel (self_id t) w1 l1)) = net w1).
  { unfold RegisteredOperation.cancel, unlocked. destruct (others w1) as [|c script];
      [reflexivity|]. unfold absorb.
    destruct (apply_change_rest c (set_others script w1)) as (_ & R).
    destruct (c_background c) as [b|];
      [rewrite (@ro_background_idle (self_id t) b _ l1 Hb1)|]; exact R. }
  destruct (RegisteredOperation.cancel (self_id t) w1 l1) as [w2 l2]. cbn [fst snd] in *.
  eexists. eexists. split; [reflexivity|]. cbn [mode registration_services self_id].
  rewrite C2, Hs1. cbn [RegisteredOperation.registration_services l0].
  unfold after_registered_operation.
  destruct (registration_services t) as [|x m]; [discriminate|]. cbn [empty negb].
  repeat split; try congruence.
  - rewrite C1, Hl1, !requests_sent_app. cbn [requests_sent]. now rewrite app_nil_r.
  - exists used. congruence.
Qed.

(** X15 at a concrete input: registry a answers the first heartbeat of
    node n1 with 404. *)
Lemma unknown_node_is_registered_again_witness :
  let t := Example.thread_in registered_operation in
  let w := set_net [response 404]
             (push_event Example.quiet (Example.added "devices/d1")) in
  exists t' w',
    node_behaviour_case Example.some_settings 2 t w = returned (t', w')
    /\ mode t' = initial_registration
    /\ registration_services t' = [(1, Example.registry_a)]
    /\ requests_sent (log w') = [(Example.registry_a, health_of "n1", response 404)]
    /\ exists used, grain_data w' = [Example.added "devices/d1"] ++ arrivals used.
Proof.
  destruct (@unknown_node_is_registered_again Example.some_settings 0
              (Example.thread_in registered_operation)
              (set_net [response 404]
                 (push_event Example.quiet (Example.added "devices/d1")))
              Example.registry_a [] eq_refl eq_refl eq_refl eq_refl eq_refl)
    as (t' & w' & H1 & H2 & H3 & _ & H4 & _ & H5).
  exists t', w'. repeat split; auto.
Defined.

Lemma update_node_health_not_found base self w n :
  net w = response status_codes.NotFound :: n ->
  update_node_health base self w
  = (add_log (error_logged "heartbeat" status_codes.NotFound)
       (add_log (sent base (health_of self) (response status_codes.NotFound)) (set_net n w)),
     inr false).
Proof.
  intros Hn. unfold update_node_health, bind, client_request. rewrite Hn. reflexivity.
Qed.

(** X16.  A registered node whose periodic heartbeat is answered 404
    (the registry has forgotten it).  With nothing pending and no flag
    up, when the background task posts its heartbeat and gets 404, the
    heartbeats stop, [node_unregistered] is raised, the loop of
    registered operation is left in that very turn without any further
    request, the registry is kept in the list, and the mode chosen after
    the return is INITIAL_REGISTRATION. *)
Theorem forgotten_node_leaves_registered_operation self base fuel w l c script n :
  shutdown w = false ->
  RegisteredOperation.registration_service_error l = false ->
  RegisteredOperation.node_unregistered l = false ->
  RegisteredOperation.background_heartbeats l = true ->
  RegisteredOperation.client l = Some base ->
  RegisteredOperation.registration_services l <> [] ->
  (grain_updated w <= RegisteredOperation.most_recent_update l)%N ->
  others w = c :: script ->
  c_background c = Some heartbeat_due ->
  net w = response status_codes.NotFound :: n ->
  exists w' l',
    loop (RegisteredOperation.iteration self) (S fuel) (w, l) = returned (w', l')
    /\ RegisteredOperation.node_unregistered l' = true
    /\ RegisteredOperation.background_heartbeats l' = false
    /\ RegisteredOperation.registration_services l' = RegisteredOperation.registration_services l
    /\ log w' = log w ++ [sent base (health_of self) (response status_codes.NotFound);
                          error_logged "heartbeat" status_codes.NotFound]
    /\ net w' = n
    /\ after_registered_operation
         (RegisteredOperation.registration_services
            (snd (RegisteredOperation.cancel self w' l'))) = initial_registration.
Proof.
  intros Hsh He Hu Hb Hc Hne Hm Ho Hbg Hn.
  cbn [loop]. unfold RegisteredOperation.iteration, condition_wait. cbn [fst snd].
  rewrite Ho. cbn [wait_script].
  assert (Hp : RegisteredOperation.predicate w l = false).
  { unfold RegisteredOperation.predicate. rewrite Hsh, He, Hu. cbn [orb].
    apply N.ltb_ge. exact Hm. }
  rewrite Hp. unfold absorb. rewrite Hbg.
  unfold RegisteredOperation.background at 1. rewrite Hb, Hc.
  destruct (apply_change_rest c (set_others script w)) as (_ & Hnet).
  cbn [net set_others] in Hnet. rewrite Hn in Hnet.
  rewrite (@update_node_health_not_found base self _ n Hnet).
  set (w1 := add_log _ _). set (l1 := RegisteredOperation.set_node_unregistered true _).
  assert (Hp1 : RegisteredOperation.predicate w1 l1 = true).
  { unfold RegisteredOperation.predicate, l1.
    cbn [RegisteredOperation.node_unregistered RegisteredOperation.set_node_unregistered].
    now rewrite orb_true_r. }
  assert (Hw : wait_script RegisteredOperation.predicate
                 (RegisteredOperation.background self) script w1 l1 = Some (w1, l1)).
  { destruct script; cbn [wait_script]; now rewrite Hp1. }
  rewrite Hw.
  assert (He1 : RegisteredOperation.registration_service_error l1 = false) by exact He.
  rewrite He1. unfold RegisteredOperation.turn.
  assert (Hu1 : RegisteredOperation.node_unregistered l1 = true) by reflexivity.
  rewrite Hu1, orb_true_r.
  exists w1, l1. split; [reflexivity|]. repeat split.
  - unfold w1. cbn [log add_log set_net]. rewrite apply_change_log.
    cbn [log set_others]. now rewrite <- app_assoc.
  - destruct (ROFacts.ro_cancel_registry self w1 l1) as [Hs _]. rewrite Hs.
    unfold after_registered_operation, l1.
    cbn [RegisteredOperation.registration_services RegisteredOperation.set_node_unregistered
         RegisteredOperation.set_background_heartbeats].
    destruct (RegisteredOperation.registration_services l); [congruence|reflexivity].
Qed.

(** X16 at a concrete input: node n1 registered with registry a, idle,
    and the next heartbeat answered 404. *)
Lemma forgotten_node_leaves_registered_operation_witness :
  let w := set_others [Example.background_runs heartbeat_due]
             (set_net [response 404] Example.quiet) in
  let l := Example.operating [(1, Example.registry_a)] Example.registry_a in
  exists w' l',
    loop (RegisteredOperation.iteration "n1") 1 (w, l) = returned (w', l')
    /\ RegisteredOperation.node_unregistered l' = true
    /\ log w' = [sent Example.registry_a (health_of "n1") (response 404);
                 error_logged "heartbeat" 404]
    /\ after_registered_operation
         (RegisteredOperation.registration_services
            (snd (RegisteredOperation.cancel "n1" w' l'))) = initial_registration.
Proof.
  destruct (@forgotten_node_leaves_registered_operation "n1" Example.registry_a 0
              (set_others [Example.background_runs heartbeat_due]
                 (set_net [response 404] Example.quiet))
              (Example.operating [(1, Example.registry_a)] Example.registry_a)
              (Example.background_runs heartbeat_due) [] []
              eq_refl eq_refl eq_refl eq_refl eq_refl)
    as (w' & l' & H1 & H2 & _ & _ & H3 & _ & H4);
    try reflexivity; try discriminate.
  exists w', l'. auto.
Defined.

(** ** The registries are tried in priority order *)

(** X17.  On a list in priority order, [pop_registration_service]
    removes exactly the registry that [top_registration_service]
    selects, leaves the rest in priority order, and none of those left
    has a better (lower) priority than the one removed: after a failure
    the agent falls back to the next best registry. *)
Theorem pop_leaves_the_next_best_registry m m' :
  by_priority m ->
  pop_registration_service m = Some m' ->
  by_priority m'
  /\ exists p u,
       top_registration_service m = Some u
       /\ m = (p, u) :: m'
       /\ forall q v, In (q, v) m' -> p <= q.
Proof.
  intros Hs Hp. destruct m as [|[p u] rest]; [discriminate|].
  cbn [pop_registration_service] in Hp. inversion Hp; subst.
  apply StronglySorted_inv in Hs. destruct Hs as [Hs Hall].
  split; [exact Hs|]. exists p, u. repeat split.
  intros q v Hin. rewrite Forall_forall in Hall. exact (Hall _ Hin).
Qed.

(** X17 at a concrete list: two registries found by a browse. *)
Lemma pop_leaves_the_next_best_registry_witness :
  by_priority [(2, Example.registry_b)]
  /\ exists p u,
       top_registration_service
         (of_insertions [(2, Example.registry_b); (1, Example.registry_a)]) = Some u
       /\ of_insertions [(2, Example.registry_b); (1, Example.registry_a)]
          = (p, u) :: [(2, Example.registry_b)]
       /\ forall q v, In (q, v) [(2, Example.registry_b)] -> p <= q.
Proof.
  apply (@pop_leaves_the_next_best_registry
           (of_insertions [(2, Example.registry_b); (1, Example.registry_a)])
           [(2, Example.registry_b)]).
  - apply of_insertions_sorted_permutation.
  - reflexivity.
Defined.

(** ** The node is registered *)

Lemma ir_unlocked_rest w l :
  net (fst (unlocked InitialRegistration.background w l)) = net w
  /\ exists used,
       grain_data (fst (unlocked InitialRegistration.background w l))
       = grain_data w ++ arrivals used.
Proof.
  destruct (@unlocked_grain _ InitialRegistration.background ir_background_store w l)
    as (used & _ & G & _).
  split; [|exists used; exact G].
  unfold unlocked. destruct (others w) as [|c script]; [reflexivity|].
  unfold absorb, InitialRegistration.background.
  destruct (apply_change_rest c (set_others script w)) as (_ & R).
  destruct (c_background c); exact R.
Qed.

(** The drain of initial registration when the node's creation is
    answered 201. *)
Lemma ir_drain_registers base prefix e rest w l n :
  shutdown w = false ->
  InitialRegistration.registration_service_error l = false ->
  InitialRegistration.node_registered l = false ->
  Forall (fun x => InitialRegistration.is_node_creation x = false) prefix ->
  InitialRegistration.is_node_creation e = true ->
  net w = response status_codes.Created :: n ->
  exists w2,
    InitialRegistration.drain base (prefix ++ e :: rest) w l
    = (w2,
       InitialRegistration.set_node_registered true
         (InitialRegistration.set_self_id (fst (get_node_behaviour_event_id_type e)) l),
       rest)
    /\ log w2 = log w ++ [sent base (post_of e) (response status_codes.Created)]
    /\ net w2 = n
    /\ exists used, grain_data w2 = grain_data w ++ arrivals used.
Proof.
  intros Hsh He Hr Hp Hc Hn.
  rewrite ir_drain_skips by assumption. cbn [InitialRegistration.drain].
  rewrite Hsh, He, Hr, Hc. cbn [orb negb].
  assert (Hcr : is_creation e = true).
  { unfold InitialRegistration.is_node_creation in Hc. apply andb_true_iff in Hc. apply Hc. }
  assert (Hfirst : is_creation e = true -> next_reply (net w) <> response status_codes.OK).
  { intros _. rewrite Hn. discriminate. }
  destruct (@request_registration_once base e w Hfirst) as (R1 & R2 & R3).
  destruct (transport_only_request_registration base e w) as (_ & S1 & _).
  rewrite Hn in R1, R2, R3. cbn [next_reply tl server_side] in R1, R2, R3.
  destruct (request_registration base e w) as [w1 r]. cbn [fst snd] in *.
  assert (Hr1 : r = inr tt) by (apply R2; reflexivity). subst r.
  set (l1 := InitialRegistration.set_self_id _ l).
  pose proof (IRFacts.ir_unlocked_locals w1 l1) as Hl.
  pose proof (ir_unlocked_log w1 l1) as Hlog.
  destruct (ir_unlocked_rest w1 l1) as (Hnet & used & Hg).
  destruct (unlocked InitialRegistration.background w1 l1) as [w2 l2].
  cbn [fst snd] in *. subst l2.
  rewrite ir_drain_registered by reflexivity.
  exists w2. split; [reflexivity|]. split; [|split; [congruence|]].
  - rewrite Hlog, R3. unfold request_of, expected_of.
    unfold is_creation in Hcr.
    destruct (get_resource_event_type e); try discriminate; reflexivity.
  - exists used. congruence.
Qed.

Lemma ir_iteration_registered w l :
  InitialRegistration.node_registered l = true ->
  InitialRegistration.registration_service_error l = false ->
  InitialRegistration.iteration (w, l) = break (w, l).
Proof.
  intros Hr He. unfold InitialRegistration.iteration, condition_wait. cbn [fst snd].
  assert (Hp : InitialRegistration.predicate w l = true).
  { unfold InitialRegistration.predicate. rewrite Hr, orb_true_r. reflexivity. }
  destruct (others w); cbn [wait_script]; rewrite Hp, He;
    unfold InitialRegistration.turn; rewrite Hr, orb_true_r; reflexivity.
Qed.

(** X18.  The way into registered operation.  In INITIAL_REGISTRATION,
    with a registry at the front of the list that answers 201 to the
    POST of the first node among the resources, one turn of the thread
    makes that POST and no other request, takes the node's id from the
    event as [self_id], keeps the registries, resets the discovery
    backoff to 0 and goes on to REGISTERED_OPERATION; the 'sync' events
    of the resources behind the node are back in the grain, in order,
    for registered operation to register. *)
Theorem registered_node_enters_registered_operation s fuel t w base prefix e rest n :
  mode t = initial_registration ->
  shutdown w = false ->
  top_registration_service (registration_services t) = Some base ->
  make_resource_events w = prefix ++ e :: rest ->
  Forall (fun x => InitialRegistration.is_node_creation x = false) prefix ->
  InitialRegistration.is_node_creation e = true ->
  net w = response status_codes.Created :: n ->
  exists t' w',
    node_behaviour_case s (S (S fuel)) t w = returned (t', w')
    /\ mode t' = registered_operation
    /\ self_id t' = fst (get_node_behaviour_event_id_type e)
    /\ registration_services t' = registration_services t
    /\ discovery_backoff t' = 0%Q
    /\ requests_sent (log w')
       = requests_sent (log w) ++ [(base, post_of e, response status_codes.Created)]
    /\ net w' = n
    /\ exists used, grain_data w' = rest ++ arrivals used.
Proof.
  intros Hmode Hsh Htop Hev Hp Hc Hn.
  unfold node_behaviour_case. rewrite Hmode.
  unfold InitialRegistration.initial_registration. cbn [loop].
  set (w0 := set_grain (make_resource_events w) (strictly_increasing_update w) w).
  match goal with |- context [InitialRegistration.iteration (w0, ?l)] => set (l0 := l) end.
  assert (Hne : empty (registration_services t) = false).
  { destruct (registration_services t); [discriminate|reflexivity]. }
  (* the first turn *)
  assert (Hit : exists w2 l2,
            InitialRegistration.iteration (w0, l0) = next (w2, l2)
            /\ InitialRegistration.node_registered l2 = true
            /\ InitialRegistration.registration_service_error l2 = false
            /\ InitialRegistration.self_id l2 = fst (get_node_behaviour_event_id_type e)
            /\ InitialRegistration.registration_services l2 = registration_services t
            /\ requests_sent (log w2)
               = requests_sent (log w) ++ [(base, post_of e, response status_codes.Created)]
            /\ net w2 = n
            /\ exists used, grain_data w2 = rest ++ arrivals used).
  { unfold InitialRegistration.iteration, condition_wait. cbn [fst snd].
    assert (Hpred : InitialRegistration.predicate w0 l0 = true).
    { unfold InitialRegistration.predicate, w0, l0.
      cbn [shutdown set_grain grain_updated InitialRegistration.registration_service_error
           InitialRegistration.node_registered InitialRegistration.most_recent_update].
      rewrite Hsh. cbn [orb]. apply N.ltb_lt. unfold strictly_increasing_update. lia. }
    assert (Hw : wait_script InitialRegistration.predicate InitialRegistration.background
                   (others w0) w0 l0 = Some (w0, l0)).
    { destruct (others w0); cbn [wait_script]; now rewrite Hpred. }
    rewrite Hw. clear Hw Hpred. subst w0 l0.
    cbn [InitialRegistration.registration_service_error].
    unfold InitialRegistration.turn.
    cbn [shutdown set_grain InitialRegistration.registration_services
         InitialRegistration.node_registered].
    rewrite Hsh, Hne, Htop. cbn [orb].
    unfold InitialRegistration.client_is. cbn [InitialRegistration.client].
    cbn [node_behaviour_grain_guard grain_data add_log set_grain].
    rewrite Hev.
    match goal with |- context [InitialRegistration.drain base _ ?w1 ?l1] =>
      destruct (@ir_drain_registers base prefix e rest w1 l1 n)
        as (w2 & Hd & Hlog & Hnet & used & Hg); auto
    end.
    rewrite Hd. eexists. eexists. split; [reflexivity|].
    cbn [InitialRegistration.node_registered InitialRegistration.registration_service_error
         InitialRegistration.self_id InitialRegistration.registration_services
         InitialRegistration.set_most_recent_update InitialRegistration.set_node_registered
         InitialRegistration.set_self_id InitialRegistration.set_client].
    repeat split; auto.
    - rewrite guard_destroy_log, Hlog. cbn [log add_log set_grain].
      rewrite !requests_sent_app. cbn [requests_sent]. now rewrite app_nil_r.
    - destruct rest; cbn [node_behaviour_grain_guard_destroy net set_grain]; exact Hnet.
    - exists used. cbn [grain_data set_grain app] in Hg.
      destruct rest as [|r rest']; cbn [node_behaviour_grain_guard_destroy grain_data set_grain];
        rewrite Hg; reflexivity. }
  destruct Hit as (w2 & l2 & Hit & Hr2 & He2 & Hid & Hsv & Hreq & Hnet & Hgr).
  rewrite Hit, (ir_iteration_registered w2 l2 Hr2 He2).
  rewrite Hsv, Hne. cbn [negb].
  eexists. eexists. split; [reflexivity|].
  cbn [mode self_id registration_services discovery_backoff]. repeat split; auto.
Qed.

(** X18 at a concrete input: a store holding a device and the node n1,
    and registry a answering 201. *)
Lemma registered_node_enters_registered_operation_witness :
  let t := Example.thread_in initial_registration in
  let w := set_net [response 201]
             (Example.with_store [("devices/d1", "{}"); ("nodes/n1", "{}")] Example.quiet) in
  exists t' w',
    node_behaviour_case Example.some_settings 2 t w = returned (t', w')
    /\ mode t' = registered_operation
    /\ self_id t' = "n1"
    /\ requests_sent (log w')
       = [(Example.registry_a,
           post_of {| path := "nodes/n1"; kind := resource_unchanged_event; post := "{}" |},
           response 201)].
Proof.
  destruct (@registered_node_enters_registered_operation Example.some_settings 0
              (Example.thread_in initial_registration)
              (set_net [response 201]
                 (Example.with_store [("devices/d1", "{}"); ("nodes/n1", "{}")] Example.quiet))
              Example.registry_a
              [{| path := "devices/d1"; kind := resource_unchanged_event; post := "{}" |}]
              {| path := "nodes/n1"; kind := resource_unchanged_event; post := "{}" |}
              [] [] eq_refl eq_refl eq_refl eq_refl)
    as (t' & w' & H1 & H2 & H3 & _ & _ & H4 & _);
    [repeat constructor | reflexivity | reflexivity |].
  exists t', w'. auto.
Defined.

(** ** A registry appears during peer-to-peer operation *)

Lemma push_events_mdns events : forall w, mdns (fold_left push_event events w) = mdns w.
Proof. induction events as [|e events IH]; intros w; simpl; [reflexivity|]. now rewrite IH. Qed.

Lemma apply_change_mdns c w : mdns (apply_change c w) = mdns w.
Proof. unfold apply_change. simpl. apply push_events_mdns. Qed.

Lemma of_insertions_not_empty found :
  found <> [] -> empty (of_insertions found) = false.
Proof.
  intros Hf. destruct (of_insertions_sorted_permutation found) as [_ Hp].
  destruct (of_insertions found); [|reflexivity].
  apply Permutation_nil in Hp. congruence.
Qed.

(** X19.  Peer-to-peer operation ends when the background discovery
    finds a registry.  With nothing pending, when the background task
    browses and the browse resolves at least one registry, the loop of
    peer-to-peer operation is left in that very turn with the resolved
    registries, in priority order, as the registry list; the version
    counters are as they were and nothing is published meanwhile; the
    list is not empty, so the thread's next mode is
    INITIAL_REGISTRATION. *)
Theorem discovered_registry_ends_peer_to_peer s fuel w l c script found browses :
  shutdown w = false ->
  PeerToPeer.registration_services_discovered l = false ->
  PeerToPeer.background_discovery l = true ->
  (grain_updated w <= PeerToPeer.most_recent_update l)%N ->
  others w = c :: script ->
  c_background c = Some discovery_due ->
  mdns w = found :: browses ->
  found <> [] ->
  exists w' l',
    loop (PeerToPeer.iteration s) (S fuel) (w, l) = returned (w', l')
    /\ PeerToPeer.registration_services l' = of_insertions found
    /\ by_priority (PeerToPeer.registration_services l')
    /\ Permutation (PeerToPeer.registration_services l') found
    /\ empty (PeerToPeer.registration_services l') = false
    /\ PeerToPeer.ver l' = PeerToPeer.ver l
    /\ log w' = log w ++ [browsed].
Proof.
  intros Hsh Hd Hb Hm Ho Hbg Hmd Hf.
  pose proof (of_insertions_not_empty Hf) as Hne.
  cbn [loop]. unfold PeerToPeer.iteration, condition_wait. cbn [fst snd].
  rewrite Ho. cbn [wait_script].
  assert (Hp : PeerToPeer.predicate w l = false).
  { unfold PeerToPeer.predicate. rewrite Hsh, Hd. cbn [orb]. apply N.ltb_ge. exact Hm. }
  rewrite Hp. unfold absorb. rewrite Hbg.
  unfold PeerToPeer.background at 1. rewrite Hb.
  unfold discover_registration_services.
  rewrite apply_change_mdns. cbn [mdns set_others]. rewrite Hmd, Hne. cbn [negb tl].
  rewrite Hne.
  set (w1 := add_log browsed _).
  match goal with |- context [wait_script _ _ script w1 ?l0] => set (l1 := l0) end.
  assert (Hp1 : PeerToPeer.predicate w1 l1 = true).
  { unfold PeerToPeer.predicate, l1. cbn [PeerToPeer.registration_services_discovered].
    now rewrite orb_true_r. }
  assert (Hw : wait_script PeerToPeer.predicate (PeerToPeer.background s) script w1 l1
               = Some (w1, l1)).
  { destruct script; cbn [wait_script]; now rewrite Hp1. }
  rewrite Hw.
  assert (Hd1 : PeerToPeer.registration_services_discovered l1 = true) by reflexivity.
  rewrite Hd1, orb_true_r.
  destruct (of_insertions_sorted_permutation found) as [Hsorted Hperm].
  exists w1, l1. split; [reflexivity|]. repeat split; auto.
  unfold w1. cbn [log add_log set_mdns]. rewrite apply_change_log. reflexivity.
Qed.

(** X19 at a concrete input: a node without a registry, and a browse
    that resolves registry a. *)
Lemma discovered_registry_ends_peer_to_peer_witness :
  let w := set_others [Example.background_runs discovery_due]
             (set_mdns [[(100, Example.registry_a)]] Example.quiet) in
  let l := {| PeerToPeer.registration_services := [];
              PeerToPeer.registration_services_discovered := false;
              PeerToPeer.background_discovery := true;
              PeerToPeer.ver := api_resource_versions_init;
              PeerToPeer.most_recent_update := 0%N |} in
  exists w' l',
    loop (PeerToPeer.iteration Example.some_settings) 1 (w, l) = returned (w', l')
    /\ PeerToPeer.registration_services l' = [(100, Example.registry_a)]
    /\ log w' = [browsed].
Proof.
  destruct (@discovered_registry_ends_peer_to_peer Example.some_settings 0
              (set_others [Example.background_runs discovery_due]
                 (set_mdns [[(100, Example.registry_a)]] Example.quiet))
              {| PeerToPeer.registration_services := [];
                 PeerToPeer.registration_services_discovered := false;
                 PeerToPeer.background_discovery := true;
                 PeerToPeer.ver := api_resource_versions_init;
                 PeerToPeer.most_recent_update := 0%N |}
              (Example.background_runs discovery_due) [] [(100, Example.registry_a)] []
              eq_refl eq_refl eq_refl)
    as (w' & l' & H1 & H2 & _ & _ & _ & _ & H3);
    try reflexivity; try discriminate.
  exists w', l'. auto.
Defined.
